(** * InspectorPerformanceAgent: a shallow embedding and its properties

    Source: WebKit/Source/core/inspector/InspectorPerformanceAgent.cpp

    The agent is a record of its member fields; every member function is a
    function on that record.  The collaborators the agent talks to (the
    persisted agent state, the instrumenting-agents registry, the thread's
    task-time observers, the instance counters, the inspected frame's
    document, the frontend channel) are gathered in a [Host] record that
    also keeps the ordered log of the calls made to them.  The probe
    objects, which live on the renderer's call stack, form a stack of the
    [World].  Durations and time stamps are C++ [double]s: binary64 floats,
    Rocq's primitive [float]. *)

From Stdlib Require Import ZArith Lia List String Bool.
From Stdlib Require Import PrimFloat SpecFloat FloatOps.
From stdpp Require Import base option gmap strings list.

Local Open Scope Z_scope.

(** ** Machine integers *)

(** The header that declares the agent's fields is not among the sources, so
    the integer types of the depth counters and of the event counts are
    parameters of the model.  Values are kept in [Z]; [wrap] brings the result
    of an increment or a decrement back into the range of the type (modular
    for the unsigned types, two's complement for the signed ones).  Overflow
    of a signed integer, which C++ leaves undefined, is thereby modelled as
    wrapping; the properties below that depend on a counter staying in range
    say so in a hypothesis. *)
Inductive int_type : Set := Int32 | UInt32 | Int64 | UInt64.

Definition int_bits (ty : int_type) : Z :=
  match ty with Int32 | UInt32 => 32 | Int64 | UInt64 => 64 end.

Definition int_signed (ty : int_type) : bool :=
  match ty with Int32 | Int64 => true | UInt32 | UInt64 => false end.

Definition int_min (ty : int_type) : Z :=
  if int_signed ty then - 2 ^ (int_bits ty - 1) else 0.

Definition int_max (ty : int_type) : Z :=
  if int_signed ty then 2 ^ (int_bits ty - 1) - 1 else 2 ^ int_bits ty - 1.

Definition wrap (ty : int_type) (z : Z) : Z :=
  if int_signed ty
  then (z + 2 ^ (int_bits ty - 1)) mod 2 ^ int_bits ty - 2 ^ (int_bits ty - 1)
  else z mod 2 ^ int_bits ty.

(** [static_cast<double>(n)] for an integer [n]: the nearest binary64 value,
    ties to even. *)
Definition double_of_Z (n : Z) : float :=
  SF2Prim (binary_normalize prec emax n 0 false).

(** ** Protocol values *)

(** [protocol::Response]; the agent only ever builds [Response::OK()]. *)
Inductive Response : Type :=
| OK
| Error (message : string).

(** [protocol::Performance::Metric] *)
Record Metric : Type := mkMetric {
  metric_name : string;
  metric_value : float
}.

(** [AppendMetric]: [container->addItem] puts the new metric at the end. *)
Definition AppendMetric (container : list Metric) (name : string)
    (value : float) : list Metric :=
  container ++ [mkMetric name value].

(** ** The agent's fields *)

Record Agent : Type := mkAgent {
  enabled_ : bool;
  layout_duration_ : float;
  recalc_style_duration_ : float;
  script_duration_ : float;
  task_duration_ : float;
  task_start_time_ : float;
  layout_count_ : Z;
  recalc_style_count_ : Z;
  script_call_depth_ : Z;
  layout_depth_ : Z
}.

(** Modelled from the spec: the header with the member initialisers is not
    among the sources.  The agent is created disabled (spec 3, AgentState),
    with every count, duration and depth at zero and the task window unset,
    for which the code's value is [0] (line 49). *)
Definition new_agent : Agent :=
  mkAgent false 0 0 0 0 0 0 0 0 0.

Definition set_enabled (v : bool) (a : Agent) : Agent :=
  mkAgent v (layout_duration_ a) (recalc_style_duration_ a)
    (script_duration_ a) (task_duration_ a) (task_start_time_ a)
    (layout_count_ a) (recalc_style_count_ a) (script_call_depth_ a)
    (layout_depth_ a).

Definition set_layout_duration (v : float) (a : Agent) : Agent :=
  mkAgent (enabled_ a) v (recalc_style_duration_ a)
    (script_duration_ a) (task_duration_ a) (task_start_time_ a)
    (layout_count_ a) (recalc_style_count_ a) (script_call_depth_ a)
    (layout_depth_ a).

Definition set_recalc_style_duration (v : float) (a : Agent) : Agent :=
  mkAgent (enabled_ a) (layout_duration_ a) v
    (script_duration_ a) (task_duration_ a) (task_start_time_ a)
    (layout_count_ a) (recalc_style_count_ a) (script_call_depth_ a)
    (layout_depth_ a).

Definition set_script_duration (v : float) (a : Agent) : Agent :=
  mkAgent (enabled_ a) (layout_duration_ a) (recalc_style_duration_ a)
    v (task_duration_ a) (task_start_time_ a)
    (layout_count_ a) (recalc_style_count_ a) (script_call_depth_ a)
    (layout_depth_ a).

Definition set_task_duration (v : float) (a : Agent) : Agent :=
  mkAgent (enabled_ a) (layout_duration_ a) (recalc_style_duration_ a)
    (script_duration_ a) v (task_start_time_ a)
    (layout_count_ a) (recalc_style_count_ a) (script_call_depth_ a)
    (layout_depth_ a).

Definition set_task_start_time (v : float) (a : Agent) : Agent :=
  mkAgent (enabled_ a) (layout_duration_ a) (recalc_style_duration_ a)
    (script_duration_ a) (task_duration_ a) v
    (layout_count_ a) (recalc_style_count_ a) (script_call_depth_ a)
    (layout_depth_ a).

Definition set_layout_count (v : Z) (a : Agent) : Agent :=
  mkAgent (enabled_ a) (layout_duration_ a) (recalc_style_duration_ a)
    (script_duration_ a) (task_duration_ a) (task_start_time_ a)
    v (recalc_style_count_ a) (script_call_depth_ a)
    (layout_depth_ a).

Definition set_recalc_style_count (v : Z) (a : Agent) : Agent :=
  mkAgent (enabled_ a) (layout_duration_ a) (recalc_style_duration_ a)
    (script_duration_ a) (task_duration_ a) (task_start_time_ a)
    (layout_count_ a) v (script_call_depth_ a)
    (layout_depth_ a).

Definition set_script_call_depth (v : Z) (a : Agent) : Agent :=
  mkAgent (enabled_ a) (layout_duration_ a) (recalc_style_duration_ a)
    (script_duration_ a) (task_duration_ a) (task_start_time_ a)
    (layout_count_ a) (recalc_style_count_ a) v
    (layout_depth_ a).

Definition set_layout_depth (v : Z) (a : Agent) : Agent :=
  mkAgent (enabled_ a) (layout_duration_ a) (recalc_style_duration_ a)
    (script_duration_ a) (task_duration_ a) (task_start_time_ a)
    (layout_count_ a) (recalc_style_count_ a) (script_call_depth_ a)
    v.

(** ** Probes *)

(** The four probe classes the agent has handlers for. *)
Inductive ProbeKind : Set :=
| CallFunction
| ExecuteScript
| RecalculateStyle
| UpdateLayout.

#[global] Instance ProbeKind_eq_dec : EqDecision ProbeKind.
Proof. solve_decision. Defined.

(** Modelled from the spec: core/probe/CoreProbes.h is not among the
    sources.  A probe is the event context of one begin/end pair; it "exposes
    a method to capture a start time and a method to compute elapsed
    duration" (spec 9).  A probe whose start was never captured has no
    elapsed time. *)
Record Probe : Type := mkProbe {
  start_time_ : option float
}.

Definition new_probe : Probe := mkProbe None.

(** Modelled from the spec: "captures the current time as the interval
    start" (spec 4.2); [now] is the reading of the clock. *)
Definition CaptureStartTime (now : float) (probe : Probe) : Probe :=
  mkProbe (Some now).

(** Modelled from the spec: "computes elapsed time since the captured
    start" (spec 4.2). *)
Definition Duration (now : float) (probe : Probe) : option float :=
  match start_time_ probe with
  | Some start => Some (now - start)%float
  | None => None
  end.

(** ** Probe and task handlers (lines 124-173) *)

Section Handlers.

(** The types of [script_call_depth_] / [layout_depth_] and of
    [layout_count_] / [recalc_style_count_].

    A [Will] handler returns the agent and the probe, which it may have
    changed through [CaptureStartTime].  A [Did] handler returns the agent,
    or [None] when it asks a probe without captured start for its
    [Duration]. *)
Variables depth_ty count_ty : int_type.

(** [if (!script_call_depth_++) probe.CaptureStartTime();] *)
Definition Will_CallFunction (a : Agent) (probe : Probe) (now : float)
    : Agent * Probe :=
  let old := script_call_depth_ a in
  let a' := set_script_call_depth (wrap depth_ty (old + 1)) a in
  if old =? 0 then (a', CaptureStartTime now probe) else (a', probe).

(** [if (!--script_call_depth_) script_duration_ += probe.Duration();] *)
Definition Did_CallFunction (a : Agent) (probe : Probe) (now : float)
    : option Agent :=
  let a' := set_script_call_depth (wrap depth_ty (script_call_depth_ a - 1)) a in
  if script_call_depth_ a' =? 0
  then match Duration now probe with
       | Some d => Some (set_script_duration (script_duration_ a' + d)%float a')
       | None => None
       end
  else Some a'.

Definition Will_ExecuteScript (a : Agent) (probe : Probe) (now : float)
    : Agent * Probe :=
  let old := script_call_depth_ a in
  let a' := set_script_call_depth (wrap depth_ty (old + 1)) a in
  if old =? 0 then (a', CaptureStartTime now probe) else (a', probe).

Definition Did_ExecuteScript (a : Agent) (probe : Probe) (now : float)
    : option Agent :=
  let a' := set_script_call_depth (wrap depth_ty (script_call_depth_ a - 1)) a in
  if script_call_depth_ a' =? 0
  then match Duration now probe with
       | Some d => Some (set_script_duration (script_duration_ a' + d)%float a')
       | None => None
       end
  else Some a'.

(** [probe.CaptureStartTime();] *)
Definition Will_RecalculateStyle (a : Agent) (probe : Probe) (now : float)
    : Agent * Probe :=
  (a, CaptureStartTime now probe).

(** [recalc_style_duration_ += probe.Duration(); recalc_style_count_++;] *)
Definition Did_RecalculateStyle (a : Agent) (probe : Probe) (now : float)
    : option Agent :=
  match Duration now probe with
  | Some d =>
      let a' := set_recalc_style_duration (recalc_style_duration_ a + d)%float a in
      Some (set_recalc_style_count (wrap count_ty (recalc_style_count_ a' + 1)) a')
  | None => None
  end.

(** [if (!layout_depth_++) probe.CaptureStartTime();] *)
Definition Will_UpdateLayout (a : Agent) (probe : Probe) (now : float)
    : Agent * Probe :=
  let old := layout_depth_ a in
  let a' := set_layout_depth (wrap depth_ty (old + 1)) a in
  if old =? 0 then (a', CaptureStartTime now probe) else (a', probe).

(** [if (--layout_depth_) return;
     layout_duration_ += probe.Duration(); layout_count_++;] *)
Definition Did_UpdateLayout (a : Agent) (probe : Probe) (now : float)
    : option Agent :=
  let a' := set_layout_depth (wrap depth_ty (layout_depth_ a - 1)) a in
  if negb (layout_depth_ a' =? 0)
  then Some a'
  else match Duration now probe with
       | Some d =>
           let a'' := set_layout_duration (layout_duration_ a' + d)%float a' in
           Some (set_layout_count (wrap count_ty (layout_count_ a'' + 1)) a'')
       | None => None
       end.

(** Overload resolution of [Will] and [Did] on the probe class. *)
Definition Will (k : ProbeKind) : Agent -> Probe -> float -> Agent * Probe :=
  match k with
  | CallFunction => Will_CallFunction
  | ExecuteScript => Will_ExecuteScript
  | RecalculateStyle => Will_RecalculateStyle
  | UpdateLayout => Will_UpdateLayout
  end.

Definition Did (k : ProbeKind) : Agent -> Probe -> float -> option Agent :=
  match k with
  | CallFunction => Did_CallFunction
  | ExecuteScript => Did_ExecuteScript
  | RecalculateStyle => Did_RecalculateStyle
  | UpdateLayout => Did_UpdateLayout
  end.

End Handlers.

(** [task_start_time_ = start_time;] *)
Definition WillProcessTask (a : Agent) (start_time : float) : Agent :=
  set_task_start_time start_time a.

(** [if (task_start_time_ == start_time)
       task_duration_ += end_time - start_time;] *)
Definition DidProcessTask (a : Agent) (start_time end_time : float) : Agent :=
  if (task_start_time_ a =? start_time)%float
  then set_task_duration (task_duration_ a + (end_time - start_time))%float a
  else a.

(** ** Collaborators *)

(** What the document of the inspected root frame supplies to [getMetrics]:
    [PaintTiming::FirstMeaningfulPaint()] and
    [DocumentTiming::DomContentLoadedEventStart()]. *)
Record Document : Type := mkDocument {
  FirstMeaningfulPaint : float;
  DomContentLoadedEventStart : float
}.

(** A call made by the agent to one of its collaborators. *)
Inductive HostCall : Type :=
| call_booleanProperty (key : string) (default_value : bool)
| call_setBoolean (key : string) (value : bool)
| call_addInspectorPerformanceAgent
| call_removeInspectorPerformanceAgent
| call_AddTaskTimeObserver
| call_RemoveTaskTimeObserver
| call_CounterValue (i : nat)
| call_GetDocument
| call_FirstMeaningfulPaint
| call_DomContentLoadedEventStart
| call_frontend_metrics (metrics : list Metric) (title : string).

Record Host : Type := mkHost {
  (** [state_]: the persisted agent state, a dictionary of booleans. *)
  state_ : gmap string bool;
  (** Whether this agent is in [instrumenting_agents_], i.e. whether the
      probes reach its [Will]/[Did] handlers. *)
  instrumenting_agents_ : bool;
  (** Whether this agent observes the current thread's tasks. *)
  task_time_observers_ : bool;
  (** [InstanceCounters::CounterValue(i)], as the [double] that
      [AppendMetric] receives. *)
  CounterValue : nat -> float;
  (** [inspected_frames_->Root()->GetDocument()], possibly null. *)
  GetDocument : option Document;
  (** Every collaborator call so far, oldest first. *)
  calls : list HostCall
}.

Definition log (c : HostCall) (h : Host) : Host :=
  mkHost (state_ h) (instrumenting_agents_ h) (task_time_observers_ h)
    (CounterValue h) (GetDocument h) (calls h ++ [c]).

(** Modelled from the spec: the persisted flag is a key-value store with
    [getBool(key, default)] and [setBool(key, value)] (spec 9). *)
Definition booleanProperty (key : string) (default_value : bool) (h : Host)
    : bool * Host :=
  (default default_value (state_ h !! key),
   log (call_booleanProperty key default_value) h).

Definition setBoolean (key : string) (value : bool) (h : Host) : Host :=
  log (call_setBoolean key value)
    (mkHost (<[key := value]> (state_ h)) (instrumenting_agents_ h)
       (task_time_observers_ h) (CounterValue h) (GetDocument h) (calls h)).

(** Modelled from the spec: registering attaches the probe hook set to the
    instrumentation dispatcher, unregistering detaches it (spec 4.1). *)
Definition addInspectorPerformanceAgent (h : Host) : Host :=
  log call_addInspectorPerformanceAgent
    (mkHost (state_ h) true (task_time_observers_ h) (CounterValue h)
       (GetDocument h) (calls h)).

Definition removeInspectorPerformanceAgent (h : Host) : Host :=
  log call_removeInspectorPerformanceAgent
    (mkHost (state_ h) false (task_time_observers_ h) (CounterValue h)
       (GetDocument h) (calls h)).

(** Modelled from the spec: the task scheduler "allows
    registering/unregistering an observer" (spec 6). *)
Definition AddTaskTimeObserver (h : Host) : Host :=
  log call_AddTaskTimeObserver
    (mkHost (state_ h) (instrumenting_agents_ h) true (CounterValue h)
       (GetDocument h) (calls h)).

Definition RemoveTaskTimeObserver (h : Host) : Host :=
  log call_RemoveTaskTimeObserver
    (mkHost (state_ h) (instrumenting_agents_ h) false (CounterValue h)
       (GetDocument h) (calls h)).

(** Calls that register the agent with a dispatcher. *)
Definition is_hook_registration (c : HostCall) : bool :=
  match c with call_addInspectorPerformanceAgent => true | _ => false end.

Definition is_observer_registration (c : HostCall) : bool :=
  match c with call_AddTaskTimeObserver => true | _ => false end.

Definition hook_registrations (h : Host) : nat :=
  length (List.filter is_hook_registration (calls h)).

Definition observer_registrations (h : Host) : nat :=
  length (List.filter is_observer_registration (calls h)).

(** ** The world: agent, collaborators and the probes in scope *)

Record World : Type := mkWorld {
  agent : Agent;
  host : Host;
  (** The probe objects alive on the renderer's call stack, innermost
      first, each with its class. *)
  probes : list (ProbeKind * Probe)
}.

Definition kPerformanceAgentEnabled : string := "PerformanceAgentEnabled".

(** [InspectorPerformanceAgent::enable] (lines 42-51) *)
Definition enable (w : World) : Response * World :=
  if enabled_ (agent w) then (OK, w)
  else
    let a := set_enabled true (agent w) in
    let h := setBoolean kPerformanceAgentEnabled true (host w) in
    let h := addInspectorPerformanceAgent h in
    let h := AddTaskTimeObserver h in
    let a := set_task_start_time 0 a in
    (OK, mkWorld a h (probes w)).

(** [InspectorPerformanceAgent::disable] (lines 53-61) *)
Definition disable (w : World) : Response * World :=
  if negb (enabled_ (agent w)) then (OK, w)
  else
    let a := set_enabled false (agent w) in
    let h := setBoolean kPerformanceAgentEnabled false (host w) in
    let h := removeInspectorPerformanceAgent h in
    let h := RemoveTaskTimeObserver h in
    (OK, mkWorld a h (probes w)).

(** [InspectorPerformanceAgent::Restore] (lines 37-40) *)
Definition Restore (w : World) : World :=
  let '(flag, h) := booleanProperty kPerformanceAgentEnabled false (host w) in
  let w := mkWorld (agent w) h (probes w) in
  if flag then snd (enable w) else w.

Section Metrics.

(** The names listed by the macro [INSTANCE_COUNTERS_LIST] of
    platform/InstanceCounters.h, which is not among the sources. *)
Variable INSTANCE_COUNTERS_LIST : list string.

(** [#name "Count"] for every listed name (lines 23-27). *)
Definition kInstanceCounterNames : list string :=
  map (fun name => String.append name "Count") INSTANCE_COUNTERS_LIST.

(** The loop of lines 86-90, from index [i] over the names still to
    visit. *)
Fixpoint instance_counters_from (i : nat) (names : list string)
    (result : list Metric) (h : Host) : list Metric * Host :=
  match names with
  | [] => (result, h)
  | name :: rest =>
      let h := log (call_CounterValue i) h in
      instance_counters_from (S i) rest
        (AppendMetric result name (CounterValue h i)) h
  end.

(** [InspectorPerformanceAgent::getMetrics] (lines 74-114); the second
    component is [*out_result]. *)
Definition getMetrics (w : World) : Response * list Metric * World :=
  let a := agent w in
  if negb (enabled_ a) then (OK, [], w)
  else
    let result := [] in
    let '(result, h) :=
      instance_counters_from 0 kInstanceCounterNames result (host w) in
    let result := AppendMetric result "LayoutCount" (double_of_Z (layout_count_ a)) in
    let result := AppendMetric result "RecalcStyleCount"
                    (double_of_Z (recalc_style_count_ a)) in
    let result := AppendMetric result "LayoutDuration" (layout_duration_ a) in
    let result := AppendMetric result "RecalcStyleDuration" (recalc_style_duration_ a) in
    let result := AppendMetric result "ScriptDuration" (script_duration_ a) in
    let result := AppendMetric result "TaskDuration" (task_duration_ a) in
    let h := log call_GetDocument h in
    match GetDocument h with
    | Some document =>
        let h := log call_FirstMeaningfulPaint h in
        let result := AppendMetric result "FirstMeaningfulPaint"
                        (FirstMeaningfulPaint document) in
        let h := log call_DomContentLoadedEventStart h in
        let result := AppendMetric result "DomContentLoaded"
                        (DomContentLoadedEventStart document) in
        (OK, result, mkWorld a h (probes w))
    | None => (OK, result, mkWorld a h (probes w))
    end.

(** [InspectorPerformanceAgent::ConsoleTimeStamp] (lines 116-122) *)
Definition ConsoleTimeStamp (title : string) (w : World) : World :=
  if negb (enabled_ (agent w)) then w
  else
    let '(_, metrics, w) := getMetrics w in
    mkWorld (agent w) (log (call_frontend_metrics metrics title) (host w))
      (probes w).

End Metrics.

(** ** Events delivered by the renderer *)

(** A probe object is created on the renderer's stack when the work begins
    and destroyed when it ends; its constructor and destructor call the
    [Will] and [Did] handlers of the agents registered at that moment.  The
    scheduler reports the begin and the end of every task to the observers
    registered at that moment.  [now] is the clock reading at the event. *)
Inductive HostEvent : Type :=
| Begin (k : ProbeKind) (now : float)
| End (k : ProbeKind) (now : float)
| TaskBegin (start_time : float)
| TaskEnd (start_time end_time : float).

Section Run.

Variables depth_ty count_ty : int_type.

(** One event.  [None] when the event cannot happen (an [End] that does not
    close the innermost probe in scope) or when a handler asks a probe
    without captured start for its duration. *)
Definition step (ev : HostEvent) (w : World) : option World :=
  match ev with
  | Begin k now =>
      if instrumenting_agents_ (host w)
      then let '(a, probe) := Will depth_ty k (agent w) new_probe now in
           Some (mkWorld a (host w) ((k, probe) :: probes w))
      else Some (mkWorld (agent w) (host w) ((k, new_probe) :: probes w))
  | End k now =>
      match probes w with
      | (k', probe) :: rest =>
          if decide (k = k')
          then if instrumenting_agents_ (host w)
               then match Did depth_ty count_ty k (agent w) probe now with
                    | Some a => Some (mkWorld a (host w) rest)
                    | None => None
                    end
               else Some (mkWorld (agent w) (host w) rest)
          else None
      | [] => None
      end
  | TaskBegin start_time =>
      if task_time_observers_ (host w)
      then Some (mkWorld (WillProcessTask (agent w) start_time) (host w) (probes w))
      else Some w
  | TaskEnd start_time end_time =>
      if task_time_observers_ (host w)
      then Some (mkWorld (DidProcessTask (agent w) start_time end_time)
                   (host w) (probes w))
      else Some w
  end.

Fixpoint run (evs : list HostEvent) (w : World) : option World :=
  match evs with
  | [] => Some w
  | ev :: rest =>
      match step ev w with
      | Some w' => run rest w'
      | None => None
      end
  end.

End Run.

(** Modelled from the spec: a freshly constructed agent in a renderer where
    nothing is registered, nothing persisted and no probe is in scope. *)
Definition new_host (counter_value : nat -> float) (document : option Document)
    : Host :=
  mkHost ∅ false false counter_value document [].

Definition new_world (counter_value : nat -> float) (document : option Document)
    : World :=
  mkWorld new_agent (new_host counter_value document) [].


(** ** Reentrancy guards and the spans of a trace *)

(** The two depth counters of the agent.  [script_call_depth_] guards both
    the [CallFunction] and the [ExecuteScript] handlers, [layout_depth_]
    guards the [UpdateLayout] handlers; [RecalculateStyle] has no guard. *)
Inductive Guard : Set := ScriptGuard | LayoutGuard.

Definition guards (g : Guard) (k : ProbeKind) : bool :=
  match g, k with
  | ScriptGuard, (CallFunction | ExecuteScript) => true
  | LayoutGuard, UpdateLayout => true
  | _, _ => false
  end.

Definition depth_of (g : Guard) (a : Agent) : Z :=
  match g with
  | ScriptGuard => script_call_depth_ a
  | LayoutGuard => layout_depth_ a
  end.

Definition set_depth (g : Guard) (v : Z) (a : Agent) : Agent :=
  match g with
  | ScriptGuard => set_script_call_depth v a
  | LayoutGuard => set_layout_depth v a
  end.

(** What closing an outermost guarded span adds to the agent's totals. *)
Definition credit (count_ty : int_type) (g : Guard) (a : Agent) (span : float)
    : Agent :=
  match g with
  | ScriptGuard => set_script_duration (script_duration_ a + span)%float a
  | LayoutGuard =>
      let a' := set_layout_duration (layout_duration_ a + span)%float a in
      set_layout_count (wrap count_ty (layout_count_ a' + 1)) a'
  end.

(** What the end of a style recalculation adds to the agent's totals. *)
Definition credit_style (count_ty : int_type) (a : Agent) (span : float)
    : Agent :=
  let a' := set_recalc_style_duration (recalc_style_duration_ a + span)%float a in
  set_recalc_style_count (wrap count_ty (recalc_style_count_ a' + 1)) a'.

(** The spans open after a trace, innermost first, each with the class of
    its probe and the time of its begin event; [open] are the spans open
    before the trace. *)
Fixpoint open_after (open : list (ProbeKind * float)) (evs : list HostEvent)
    : list (ProbeKind * float) :=
  match evs with
  | [] => open
  | Begin k now :: rest => open_after ((k, now) :: open) rest
  | End _ _ :: rest => open_after (tail open) rest
  | _ :: rest => open_after open rest
  end.

(** Follows the spec's words for a guarded category: nested calls are
    transparent, and "total reported duration equals outer wall time".  The
    wall time of every outermost span that a trace closes, in the order of
    the closing events: an end event yields a span only when it closes the
    last open span, and the span runs from that span's begin event. *)
Fixpoint outer_spans (open : list (ProbeKind * float)) (evs : list HostEvent)
    : list float :=
  match evs with
  | [] => []
  | Begin k now :: rest => outer_spans ((k, now) :: open) rest
  | End _ now :: rest =>
      match open with
      | [(_, start)] => (now - start)%float :: outer_spans [] rest
      | _ => outer_spans (tail open) rest
      end
  | _ :: rest => outer_spans open rest
  end.

(** Follows the spec's words for the non-guarded category: every end event
    adds the elapsed time of its own call.  The span of every call that a
    trace closes, in the order of the closing events. *)
Fixpoint own_spans (open : list (ProbeKind * float)) (evs : list HostEvent)
    : list float :=
  match evs with
  | [] => []
  | Begin k now :: rest => own_spans ((k, now) :: open) rest
  | End _ now :: rest =>
      match open with
      | (_, start) :: open' => (now - start)%float :: own_spans open' rest
      | [] => own_spans [] rest
      end
  | _ :: rest => own_spans open rest
  end.

Definition is_end (ev : HostEvent) : bool :=
  match ev with End _ _ => true | _ => false end.

Definition count_ends (evs : list HostEvent) : nat :=
  length (filter (fun ev => is_end ev = true) evs).

(** A trace of begin and end events of the probe classes in [kinds] in
    which every end event closes the innermost open span (so no end event
    comes without its begin event), and in which at most [limit] spans are
    ever open at once. *)
Fixpoint well_nested (kinds : ProbeKind -> bool) (limit : Z)
    (open : list (ProbeKind * float)) (evs : list HostEvent) : bool :=
  match evs with
  | [] => true
  | Begin k now :: rest =>
      kinds k && (Z.of_nat (length open) + 1 <=? limit)
      && well_nested kinds limit ((k, now) :: open) rest
  | End k _ :: rest =>
      match open with
      | (k', _) :: open' =>
          kinds k && bool_decide (k = k') && well_nested kinds limit open' rest
      | [] => false
      end
  | _ :: rest => false
  end.

Definition is_style (k : ProbeKind) : bool :=
  match k with RecalculateStyle => true | _ => false end.

(** The probe objects of the open spans of a guard, as the guarded
    handlers leave them: only the outermost one has a captured start. *)
Fixpoint guarded_probes (open : list (ProbeKind * float))
    : list (ProbeKind * Probe) :=
  match open with
  | [] => []
  | (k, start) :: open' =>
      (k, match open' with [] => mkProbe (Some start) | _ => new_probe end)
      :: guarded_probes open'
  end.

(** The probe objects of open style recalculations: each has captured its
    own start. *)
Definition style_probes (open : list (ProbeKind * float))
    : list (ProbeKind * Probe) :=
  map (fun span => (fst span, mkProbe (Some (snd span)))) open.


(** ** Worlds and traces of the spec's scenarios *)

(** A renderer without instance-counter values of interest and without
    document, in which the agent has just been enabled. *)
Definition enabled_world : World :=
  snd (enable (new_world (fun _ => 0%float) None)).

(** Spec 8, nested guarded category: layout begins at 0, nested layout
    begins at 1, the inner ends at 3, the outer ends at 5. *)
Definition nested_layout_trace : list HostEvent :=
  [Begin UpdateLayout 0; Begin UpdateLayout 1;
   End UpdateLayout 3; End UpdateLayout 5].

(** Spec 8, non-guarded category: style recalculation begins at 0, a nested
    one begins at 1 and ends at 2, the outer ends at 4. *)
Definition nested_style_trace : list HostEvent :=
  [Begin RecalculateStyle 0; Begin RecalculateStyle 1;
   End RecalculateStyle 2; End RecalculateStyle 4].


(** The category counters of the agent: counts, durations and depths. *)
Definition counters (a : Agent) : Z * Z * float * float * float * float * Z * Z :=
  (layout_count_ a, recalc_style_count_ a, layout_duration_ a,
   recalc_style_duration_ a, script_duration_ a, task_duration_ a,
   script_call_depth_ a, layout_depth_ a).

(** Spec 8, task pairing: the world after [onTaskBegin(10)]. *)
Definition task_begun_world : World :=
  mkWorld (WillProcessTask (agent enabled_world) 10) (host enabled_world)
    (probes enabled_world).


(** ** The snapshot as the spec lays it out *)

(** Follows the spec's words (4.4, item 1): "one metric per externally
    enumerated instance-counter type, name suffixed "Count", value from the
    external counter provider, in the provider's enumeration order"; [i] is
    the index of the first name. *)
Fixpoint spec_counter_metrics (counter_value : nat -> float) (i : nat)
    (names : list string) : list Metric :=
  match names with
  | [] => []
  | name :: rest =>
      mkMetric (String.append name "Count") (counter_value i)
      :: spec_counter_metrics counter_value (S i) rest
  end.

(** Follows the spec's words (4.4, item 2): the six fixed-name metrics, in
    this order, counts converted to floating point. *)
Definition spec_fixed_metrics (a : Agent) : list Metric :=
  [mkMetric "LayoutCount" (double_of_Z (layout_count_ a));
   mkMetric "RecalcStyleCount" (double_of_Z (recalc_style_count_ a));
   mkMetric "LayoutDuration" (layout_duration_ a);
   mkMetric "RecalcStyleDuration" (recalc_style_duration_ a);
   mkMetric "ScriptDuration" (script_duration_ a);
   mkMetric "TaskDuration" (task_duration_ a)].

(** Follows the spec's words (4.4, item 3): the two timing metrics when a
    document is available, nothing otherwise. *)
Definition spec_timing_metrics (document : option Document) : list Metric :=
  match document with
  | Some d =>
      [mkMetric "FirstMeaningfulPaint" (FirstMeaningfulPaint d);
       mkMetric "DomContentLoaded" (DomContentLoadedEventStart d)]
  | None => []
  end.

(** The collaborator calls of one enabled [getMetrics], in order. *)
Definition getMetrics_calls (names : list string) (document : option Document)
    : list HostCall :=
  map call_CounterValue (seq 0 (length names))
  ++ call_GetDocument
     :: match document with
        | Some _ => [call_FirstMeaningfulPaint; call_DomContentLoadedEventStart]
        | None => []
        end.

(** [h] with more calls in its log. *)
Definition log_calls (cs : list HostCall) (h : Host) : Host :=
  mkHost (state_ h) (instrumenting_agents_ h) (task_time_observers_ h)
    (CounterValue h) (GetDocument h) (calls h ++ cs).

(** Whether a string has the suffix "Count". *)
Fixpoint ends_with_Count (s : string) : bool :=
  match s with
  | EmptyString => false
  | String _ rest => String.eqb s "Count" || ends_with_Count rest
  end.

(** A world with two instance counters and a document, agent enabled. *)
Definition snapshot_world : World :=
  snd (enable (new_world (fun i => match i with O => 3 | _ => 8 end)%float
                 (Some (mkDocument 1.5 0.75)))).


(** A layout began while the agent was still disabled: its probe is in
    scope, but no handler of the agent has seen it. *)
Definition layout_in_progress_world : World :=
  mkWorld new_agent (new_host (fun _ => 0%float) None)
    [(UpdateLayout, new_probe)].

(** The agent is enabled during that layout.  Then the layout ends (an end
    event whose begin event the agent never saw), and a second layout runs
    from 3 to 7. *)
Definition enabled_during_layout_world : World :=
  snd (enable layout_in_progress_world).

Definition unmatched_end_trace : list HostEvent :=
  [End UpdateLayout 2; Begin UpdateLayout 3; End UpdateLayout 7].


(** ** Sessions and protocol commands *)

(** Modelled from the spec: at the restoration of a session only the
    persisted agent state survives (spec 4.1, [restore]); the agent is a new
    one, registered nowhere, and no probe is in scope. *)
Definition new_session (h : Host) : World :=
  mkWorld new_agent
    (mkHost (state_ h) false false (CounterValue h) (GetDocument h) []) [].

(** The agent's flag, its two registrations and the persisted flag agree. *)
Definition in_sync (w : World) : Prop :=
  instrumenting_agents_ (host w) = enabled_ (agent w)
  /\ task_time_observers_ (host w) = enabled_ (agent w)
  /\ default false (state_ (host w) !! kPerformanceAgentEnabled)
     = enabled_ (agent w).

(** The member functions that the protocol dispatcher, the session and the
    console call, as commands. *)
Inductive Command : Type :=
| CmdEnable
| CmdDisable
| CmdRestore
| CmdGetMetrics
| CmdConsoleTimeStamp (title : string).

Definition exec (INSTANCE_COUNTERS_LIST : list string) (c : Command)
    (w : World) : World :=
  match c with
  | CmdEnable => snd (enable w)
  | CmdDisable => snd (disable w)
  | CmdRestore => Restore w
  | CmdGetMetrics => snd (getMetrics INSTANCE_COUNTERS_LIST w)
  | CmdConsoleTimeStamp title => ConsoleTimeStamp INSTANCE_COUNTERS_LIST title w
  end.

Definition exec_all (INSTANCE_COUNTERS_LIST : list string)
    (cs : list Command) (w : World) : World :=
  fold_left (fun w c => exec INSTANCE_COUNTERS_LIST c w) cs w.

(** ** Traces that mix the probe classes *)

(** The guard of a probe class, if it has one. *)
Definition guard_of (k : ProbeKind) : option Guard :=
  match k with
  | CallFunction | ExecuteScript => Some ScriptGuard
  | UpdateLayout => Some LayoutGuard
  | RecalculateStyle => None
  end.

(** How many of the open spans a guard counts. *)
Definition open_depth (g : Guard) (open : list (ProbeKind * float)) : nat :=
  length (List.filter (fun span => guards g (fst span)) open).

(** Whether a span of class [k] that lies directly on top of the spans
    [open] is credited when it ends: always for a style recalculation, for
    a guarded class when no span of the same guard is open below it. *)
Definition outermost (k : ProbeKind) (open : list (ProbeKind * float)) : bool :=
  match guard_of k with
  | Some g => (open_depth g open =? 0)%nat
  | None => true
  end.

(** What the end of a span of class [fst span] with elapsed time
    [snd span] adds to the totals of its category. *)
Definition credit_kind (count_ty : int_type) (a : Agent)
    (span : ProbeKind * float) : Agent :=
  match guard_of (fst span) with
  | Some g => credit count_ty g a (snd span)
  | None => credit_style count_ty a (snd span)
  end.

(** The spans that a trace of any probe classes credits, with their class,
    in the order of the closing events. *)
Fixpoint credited_spans (open : list (ProbeKind * float))
    (evs : list HostEvent) : list (ProbeKind * float) :=
  match evs with
  | [] => []
  | Begin k now :: rest => credited_spans ((k, now) :: open) rest
  | End _ now :: rest =>
      match open with
      | (k, start) :: open' =>
          if outermost k open'
          then (k, (now - start)%float) :: credited_spans open' rest
          else credited_spans open' rest
      | [] => credited_spans [] rest
      end
  | _ :: rest => credited_spans open rest
  end.

(** The probe objects of open spans of any classes, as the handlers leave
    them: a probe has a captured start exactly when its span is credited at
    its end. *)
Fixpoint mixed_probes (open : list (ProbeKind * float))
    : list (ProbeKind * Probe) :=
  match open with
  | [] => []
  | (k, start) :: open' =>
      (k, if outermost k open' then mkProbe (Some start) else new_probe)
      :: mixed_probes open'
  end.

(** Both depth counters set to what the open spans say. *)
Definition set_depths (open : list (ProbeKind * float)) (a : Agent) : Agent :=
  set_script_call_depth (Z.of_nat (open_depth ScriptGuard open))
    (set_layout_depth (Z.of_nat (open_depth LayoutGuard open)) a).

(** The depth counters agree with the open spans. *)
Definition depths_agree (open : list (ProbeKind * float)) (a : Agent) : Prop :=
  forall g : Guard, depth_of g a = Z.of_nat (open_depth g open).

(** The probe objects of open spans of a guard whose counter was not at
    zero when the first of them began: none has a captured start. *)
Definition uncaptured_probes (open : list (ProbeKind * float))
    : list (ProbeKind * Probe) :=
  map (fun span => (fst span, new_probe)) open.

Definition any_kind (k : ProbeKind) : bool := true.

(** The durations of the credited spans of the classes in [kinds]. *)
Definition spans_of (kinds : ProbeKind -> bool)
    (spans : list (ProbeKind * float)) : list float :=
  map snd (List.filter (fun span => kinds (fst span)) spans).

(** A script runs from 0 to 9; inside it a layout from 1 to 8; inside the
    layout two style recalculations, from 2 to 3 and from 4 to 6. *)
Definition page_load_trace : list HostEvent :=
  [Begin ExecuteScript 0; Begin UpdateLayout 1;
   Begin RecalculateStyle 2; End RecalculateStyle 3;
   Begin RecalculateStyle 4; End RecalculateStyle 6;
   End UpdateLayout 8; End ExecuteScript 9].

(** A layout began at 1 while the agent was enabled; the agent was disabled
    before the layout ended, so it never saw the end; then it was enabled
    again. *)
Definition disabled_during_layout_world : World :=
  match run Int32 UInt64 [Begin UpdateLayout 1] enabled_world with
  | Some w =>
      match run Int32 UInt64 [End UpdateLayout 2] (snd (disable w)) with
      | Some w' => snd (enable w')
      | None => w
      end
  | None => enabled_world
  end.


(** ** Counting registrations *)

Definition is_hook_unregistration (c : HostCall) : bool :=
  match c with call_removeInspectorPerformanceAgent => true | _ => false end.

Definition is_observer_unregistration (c : HostCall) : bool :=
  match c with call_RemoveTaskTimeObserver => true | _ => false end.

(** How often the calls [cs] contain a call of the class [p]. *)
Definition count_calls (p : HostCall -> bool) (cs : list HostCall) : nat :=
  length (List.filter p cs).

(** The agent is registered with each dispatcher once more than it is
    unregistered when it is enabled, and as often when it is disabled. *)
Definition registered_once (w : World) : Prop :=
  count_calls is_hook_registration (calls (host w))
  = (count_calls is_hook_unregistration (calls (host w))
     + if enabled_ (agent w) then 1 else 0)%nat
  /\ count_calls is_observer_registration (calls (host w))
     = (count_calls is_observer_unregistration (calls (host w))
        + if enabled_ (agent w) then 1 else 0)%nat.

(** Calls that neither register nor unregister the agent. *)
Definition is_plain_call (c : HostCall) : bool :=
  negb (is_hook_registration c || is_hook_unregistration c
        || is_observer_registration c || is_observer_unregistration c).


(** * Properties *)

(** ** Integers in range do not wrap *)

Lemma int_min_nonpos (ty : int_type) : int_min ty <= 0.
Proof. destruct ty; vm_compute; congruence. Qed.

Lemma int_max_large (ty : int_type) : 2147483647 <= int_max ty.
Proof. destruct ty; vm_compute; congruence. Qed.

Lemma wrap_small (ty : int_type) (z : Z) :
  int_min ty <= z <= int_max ty -> wrap ty z = z.
Proof.
  destruct ty; unfold wrap, int_min, int_max; cbn [int_signed int_bits];
    intros Hz.
  all: change (2 ^ (32 - 1)) with 2147483648 in *;
       change (2 ^ 32) with 4294967296 in *;
       change (2 ^ (64 - 1)) with 9223372036854775808 in *;
       change (2 ^ 64) with 18446744073709551616 in *.
  all: rewrite Z.mod_small by lia; lia.
Qed.

Lemma wrap_minus_one_nonzero (ty : int_type) : wrap ty (0 - 1) <> 0.
Proof. destruct ty; vm_compute; congruence. Qed.

(** ** Guarded spans *)

Section Guarded.

Variables depth_ty count_ty : int_type.
Variable g : Guard.

Lemma set_depth_twice (m n : Z) (a : Agent) :
  set_depth g n (set_depth g m a) = set_depth g n a.
Proof. destruct g; reflexivity. Qed.

Lemma depth_of_set_depth (n : Z) (a : Agent) :
  depth_of g (set_depth g n a) = n.
Proof. destruct g; reflexivity. Qed.

Lemma set_depth_same (a : Agent) :
  set_depth g (depth_of g a) a = a.
Proof. destruct g, a; reflexivity. Qed.

Lemma credit_set_depth (n : Z) (a : Agent) (span : float) :
  credit count_ty g (set_depth g n a) span
  = set_depth g n (credit count_ty g a span).
Proof. destruct g; reflexivity. Qed.

Lemma credits_set_depth (spans : list float) (n : Z) (a : Agent) :
  fold_left (credit count_ty g) spans (set_depth g n a)
  = set_depth g n (fold_left (credit count_ty g) spans a).
Proof.
  revert a; induction spans as [|s spans IH]; intros a; simpl; [reflexivity|].
  rewrite credit_set_depth. apply IH.
Qed.

(** The [Will] handler of a guarded class, at a depth in range. *)
Lemma Will_guarded (k : ProbeKind) (a : Agent) (now : float) :
  guards g k = true ->
  0 <= depth_of g a -> depth_of g a + 1 <= int_max depth_ty ->
  Will depth_ty k a new_probe now
  = (set_depth g (depth_of g a + 1) a,
     if depth_of g a =? 0 then mkProbe (Some now) else new_probe).
Proof.
  intros Hk Hlo Hhi.
  assert (Hw : wrap depth_ty (depth_of g a + 1) = depth_of g a + 1).
  { apply wrap_small. pose proof (int_min_nonpos depth_ty). lia. }
  destruct g, k; try discriminate Hk; simpl in *;
    unfold Will_CallFunction, Will_ExecuteScript, Will_UpdateLayout;
    rewrite Hw; destruct (_ =? 0); reflexivity.
Qed.

(** The [Did] handler of a guarded class, for an inner span. *)
Lemma Did_guarded_inner (k : ProbeKind) (a : Agent) (probe : Probe) (now : float) :
  guards g k = true ->
  2 <= depth_of g a <= int_max depth_ty ->
  Did depth_ty count_ty k a probe now = Some (set_depth g (depth_of g a - 1) a).
Proof.
  intros Hk Hd.
  assert (Hw : wrap depth_ty (depth_of g a - 1) = depth_of g a - 1).
  { apply wrap_small. pose proof (int_min_nonpos depth_ty). lia. }
  destruct g, k; try discriminate Hk; simpl in *;
    unfold Did_CallFunction, Did_ExecuteScript, Did_UpdateLayout; simpl;
    rewrite Hw;
    destruct (Z.eqb_spec (script_call_depth_ a - 1) 0);
    destruct (Z.eqb_spec (layout_depth_ a - 1) 0);
    try lia; reflexivity.
Qed.

(** The [Did] handler of a guarded class, for the outermost span. *)
Lemma Did_guarded_outer (k : ProbeKind) (a : Agent) (start now : float) :
  guards g k = true ->
  depth_of g a = 1 ->
  Did depth_ty count_ty k a (mkProbe (Some start)) now
  = Some (credit count_ty g (set_depth g 0 a) (now - start)%float).
Proof.
  intros Hk Hd.
  assert (Hw : wrap depth_ty (1 - 1) = 0) by (destruct depth_ty; reflexivity).
  destruct g, k; try discriminate Hk; simpl in *;
    unfold Did_CallFunction, Did_ExecuteScript, Did_UpdateLayout; simpl;
    rewrite Hd, Hw; reflexivity.
Qed.

End Guarded.

Section GuardedRun.

Variables depth_ty count_ty : int_type.
Variable g : Guard.

(** A well-nested trace of one guard, run from a state whose depth counter
    equals the number of open spans: the run succeeds, the counter follows
    the number of open spans, and exactly the outermost spans are credited. *)
Lemma run_guarded (evs : list HostEvent) :
  forall (open : list (ProbeKind * float)) (base : list (ProbeKind * Probe))
         (a : Agent) (h : Host),
  instrumenting_agents_ h = true ->
  depth_of g a = Z.of_nat (length open) ->
  Z.of_nat (length open) <= int_max depth_ty ->
  well_nested (guards g) (int_max depth_ty) open evs = true ->
  run depth_ty count_ty evs (mkWorld a h (guarded_probes open ++ base))
  = Some (mkWorld
            (set_depth g (Z.of_nat (length (open_after open evs)))
               (fold_left (credit count_ty g) (outer_spans open evs) a))
            h (guarded_probes (open_after open evs) ++ base)).
Proof.
  induction evs as [|ev evs IH]; intros open base a h Hreg Hdepth Hmax Hwn.
  - simpl. rewrite <- Hdepth, set_depth_same. reflexivity.
  - destruct ev as [k now|k now|st|st en]; simpl in Hwn; try discriminate Hwn.
    + (* Begin *)
      apply andb_prop in Hwn as [Hwn Hrest].
      apply andb_prop in Hwn as [Hk Hlim]. apply Z.leb_le in Hlim.
      cbn [run step agent host probes]. rewrite Hreg.
      rewrite (Will_guarded depth_ty g k a now Hk) by lia.
      rewrite Hdepth.
      replace (if Z.of_nat (length open) =? 0 then mkProbe (Some now) else new_probe)
        with (match open with [] => mkProbe (Some now) | _ => new_probe end)
        by (destruct open; reflexivity).
      change ((k, match open with [] => mkProbe (Some now) | _ => new_probe end)
              :: guarded_probes open ++ base)
        with (guarded_probes ((k, now) :: open) ++ base).
      rewrite (IH ((k, now) :: open) base); try assumption.
      * cbn [open_after outer_spans].
        rewrite credits_set_depth, set_depth_twice. reflexivity.
      * rewrite depth_of_set_depth. cbn [length]. lia.
      * cbn [length]. lia.
    + (* End *)
      destruct open as [|[k' start] open']; [discriminate Hwn|].
      apply andb_prop in Hwn as [Hwn Hrest].
      apply andb_prop in Hwn as [Hk Heq]. apply bool_decide_eq_true in Heq.
      subst k'. cbn [length] in Hdepth, Hmax.
      cbn [run step agent host probes guarded_probes app].
      rewrite decide_True by reflexivity. rewrite Hreg.
      destruct open' as [|span open'']; cbn [length] in Hdepth, Hmax.
      * rewrite (Did_guarded_outer depth_ty count_ty g k a start now Hk)
          by (rewrite Hdepth; reflexivity).
        rewrite (IH [] base); try assumption.
        -- cbn [open_after outer_spans tail fold_left].
           rewrite credit_set_depth, credits_set_depth, set_depth_twice.
           reflexivity.
        -- rewrite credit_set_depth, depth_of_set_depth. reflexivity.
        -- cbn [length]. pose proof (int_max_large depth_ty). lia.
      * rewrite (Did_guarded_inner depth_ty count_ty g k a _ now Hk)
          by (rewrite Hdepth; cbn [length]; lia).
        rewrite (IH (span :: open'') base); try assumption.
        -- destruct span as [k2 t2].
           cbn [open_after outer_spans tail].
           rewrite credits_set_depth, set_depth_twice. reflexivity.
        -- rewrite depth_of_set_depth, Hdepth. cbn [length]. lia.
        -- cbn [length] in *. lia.
Qed.

(** Crediting spans to the layout guard adds them, in order, to
    [layout_duration_] and counts them in [layout_count_]. *)
Lemma layout_duration_credits (spans : list float) (a : Agent) :
  layout_duration_ (fold_left (credit count_ty LayoutGuard) spans a)
  = fold_left PrimFloat.add spans (layout_duration_ a).
Proof.
  revert a; induction spans as [|s spans IH]; intros a; [reflexivity|].
  cbn [fold_left]. rewrite IH. reflexivity.
Qed.

Lemma layout_count_credits (spans : list float) (a : Agent) :
  0 <= layout_count_ a ->
  layout_count_ a + Z.of_nat (length spans) <= int_max count_ty ->
  layout_count_ (fold_left (credit count_ty LayoutGuard) spans a)
  = layout_count_ a + Z.of_nat (length spans).
Proof.
  revert a; induction spans as [|s spans IH]; intros a Hlo Hhi.
  - simpl. lia.
  - cbn [fold_left length] in *.
    assert (Hw : wrap count_ty (layout_count_ a + 1) = layout_count_ a + 1).
    { apply wrap_small. pose proof (int_min_nonpos count_ty). lia. }
    rewrite IH; cbn [credit layout_count_ set_layout_count set_layout_duration];
      rewrite Hw; lia.
Qed.

End GuardedRun.

(** ** Style recalculation spans *)

Section StyleRun.

Variables depth_ty count_ty : int_type.

(** A well-nested trace of style recalculations: the run succeeds and every
    end event credits the span of its own call. *)
Lemma run_style (limit : Z) (evs : list HostEvent) :
  forall (open : list (ProbeKind * float)) (base : list (ProbeKind * Probe))
         (a : Agent) (h : Host),
  instrumenting_agents_ h = true ->
  well_nested is_style limit open evs = true ->
  run depth_ty count_ty evs (mkWorld a h (style_probes open ++ base))
  = Some (mkWorld (fold_left (credit_style count_ty) (own_spans open evs) a)
            h (style_probes (open_after open evs) ++ base)).
Proof.
  induction evs as [|ev evs IH]; intros open base a h Hreg Hwn.
  - reflexivity.
  - destruct ev as [k now|k now|st|st en]; simpl in Hwn; try discriminate Hwn.
    + apply andb_prop in Hwn as [Hwn Hrest].
      apply andb_prop in Hwn as [Hk _].
      destruct k; try discriminate Hk.
      cbn [run step agent host probes]. rewrite Hreg.
      cbn [Will Will_RecalculateStyle CaptureStartTime].
      apply (IH ((RecalculateStyle, now) :: open) base a h Hreg Hrest).
    + destruct open as [|[k' start] open']; [discriminate Hwn|].
      apply andb_prop in Hwn as [Hwn Hrest].
      apply andb_prop in Hwn as [Hk Heq]. apply bool_decide_eq_true in Heq.
      subst k'. destruct k; try discriminate Hk.
      cbn [run step agent host probes style_probes map app fst snd].
      rewrite decide_True by reflexivity. rewrite Hreg.
      cbn [Did Did_RecalculateStyle Duration start_time_].
      apply (IH open' base _ h Hreg Hrest).
Qed.

Lemma style_duration_credits (spans : list float) (a : Agent) :
  recalc_style_duration_ (fold_left (credit_style count_ty) spans a)
  = fold_left PrimFloat.add spans (recalc_style_duration_ a).
Proof.
  revert a; induction spans as [|s spans IH]; intros a; [reflexivity|].
  cbn [fold_left]. rewrite IH. reflexivity.
Qed.

Lemma style_count_credits (spans : list float) (a : Agent) :
  0 <= recalc_style_count_ a ->
  recalc_style_count_ a + Z.of_nat (length spans) <= int_max count_ty ->
  recalc_style_count_ (fold_left (credit_style count_ty) spans a)
  = recalc_style_count_ a + Z.of_nat (length spans).
Proof.
  revert a; induction spans as [|s spans IH]; intros a Hlo Hhi.
  - simpl. lia.
  - cbn [fold_left length] in *.
    assert (Hw : wrap count_ty (recalc_style_count_ a + 1)
                 = recalc_style_count_ a + 1).
    { apply wrap_small. pose proof (int_min_nonpos count_ty). lia. }
    rewrite IH;
      cbn [credit_style recalc_style_count_ set_recalc_style_count
           set_recalc_style_duration];
      rewrite Hw; lia.
Qed.

End StyleRun.

(** In a well-nested trace every end event closes a call. *)
Lemma own_spans_length (kinds : ProbeKind -> bool) (limit : Z)
    (evs : list HostEvent) :
  forall open : list (ProbeKind * float),
  well_nested kinds limit open evs = true ->
  length (own_spans open evs) = count_ends evs.
Proof.
  unfold count_ends.
  induction evs as [|ev evs IH]; intros open Hwn; [reflexivity|].
  destruct ev as [k now|k now|st|st en]; simpl in Hwn; try discriminate Hwn.
  - apply andb_prop in Hwn as [_ Hrest]. simpl. apply (IH _ Hrest).
  - destruct open as [|[k' start] open']; [discriminate Hwn|].
    apply andb_prop in Hwn as [_ Hrest]. simpl. f_equal. apply (IH _ Hrest).
Qed.

(** ** What [outer_spans] yields *)

(** Events nested inside an open span yield nothing: they only change the
    spans that are open above it. *)
Lemma outer_spans_nested (kinds : ProbeKind -> bool) (limit : Z)
    (inner : list HostEvent) :
  forall (open base : list (ProbeKind * float)) (rest : list HostEvent),
  base <> [] ->
  well_nested kinds limit open inner = true ->
  outer_spans (open ++ base) (inner ++ rest)
  = outer_spans (open_after open inner ++ base) rest.
Proof.
  induction inner as [|ev inner IH]; intros open base rest Hbase Hwn.
  - reflexivity.
  - destruct ev as [k now|k now|st|st en]; simpl in Hwn; try discriminate Hwn.
    + apply andb_prop in Hwn as [_ Hrest].
      apply (IH ((k, now) :: open) base rest Hbase Hrest).
    + destruct open as [|[k' start] open']; [discriminate Hwn|].
      apply andb_prop in Hwn as [_ Hrest].
      cbn [app outer_spans open_after tail].
      rewrite <- (IH open' base rest Hbase Hrest).
      destruct (open' ++ base) eqn:Happ; [|reflexivity].
      apply app_eq_nil in Happ as [_ ->]. congruence.
Qed.

(** One outermost span with well-nested content: nothing while it is open,
    its wall time when it closes. *)
Lemma outer_spans_one_span (kinds : ProbeKind -> bool) (limit : Z)
    (k k' : ProbeKind) (t0 t1 : float) (inner : list HostEvent) :
  well_nested kinds limit [] inner = true ->
  outer_spans [] (Begin k t0 :: inner) = []
  /\ (open_after [] inner = [] ->
      outer_spans [] (Begin k t0 :: inner ++ [End k' t1]) = [(t1 - t0)%float]).
Proof.
  intros Hwn. split.
  - cbn [outer_spans].
    pose proof (outer_spans_nested kinds limit inner [] [(k, t0)] []) as H.
    rewrite app_nil_r in H. cbn [app] in H. rewrite H; [|congruence|exact Hwn].
    reflexivity.
  - intros Hbal. cbn [outer_spans].
    pose proof (outer_spans_nested kinds limit inner [] [(k, t0)] [End k' t1])
      as H.
    cbn [app] in H. rewrite H; [|congruence|exact Hwn].
    rewrite Hbal. reflexivity.
Qed.

(** ** The claims *)

(** C1.  For every well-nested trace of layout begin/end events, run from a
    state with no layout in progress, [layout_duration_] grows exactly by the
    wall times of the outermost spans that the trace closes and
    [layout_count_] by one per outermost span; [outer_spans] lists these wall
    times.  For one outermost span with any well-nested content the list is
    empty as long as the span is open, and holds the one wall time, from the
    begin event of the outer span to its end event, once it is closed.  The
    scenario of spec 8 is [layout_nested_scenario]. *)
Theorem layout_credits_outer_spans (depth_ty count_ty : int_type)
    (evs : list HostEvent) (w : World) :
  instrumenting_agents_ (host w) = true ->
  layout_depth_ (agent w) = 0 ->
  well_nested (guards LayoutGuard) (int_max depth_ty) [] evs = true ->
  0 <= layout_count_ (agent w) ->
  layout_count_ (agent w) + Z.of_nat (length (outer_spans [] evs))
    <= int_max count_ty ->
  (exists w' : World,
     run depth_ty count_ty evs w = Some w'
     /\ layout_duration_ (agent w')
        = fold_left PrimFloat.add (outer_spans [] evs) (layout_duration_ (agent w))
     /\ layout_count_ (agent w')
        = layout_count_ (agent w) + Z.of_nat (length (outer_spans [] evs))
     /\ layout_depth_ (agent w') = Z.of_nat (length (open_after [] evs)))
  /\ forall (t0 t1 : float) (inner : list HostEvent),
       well_nested (guards LayoutGuard) (int_max depth_ty) [] inner = true ->
       outer_spans [] (Begin UpdateLayout t0 :: inner) = []
       /\ (open_after [] inner = [] ->
           outer_spans [] (Begin UpdateLayout t0 :: inner ++ [End UpdateLayout t1])
           = [(t1 - t0)%float]).
Proof.
  destruct w as [a h ps]; cbn [agent host]; intros Hreg Hdepth Hwn Hlo Hhi.
  split; [|intros t0 t1 inner; apply outer_spans_one_span].
  pose proof (run_guarded depth_ty count_ty LayoutGuard evs [] ps a h Hreg Hdepth)
    as Hrun.
  cbn [guarded_probes app length] in Hrun.
  specialize (Hrun ltac:(pose proof (int_max_large depth_ty); lia) Hwn).
  eexists; split; [exact Hrun|]. cbn [agent set_depth].
  repeat split.
  - apply layout_duration_credits.
  - apply layout_count_credits; assumption.
Qed.

Lemma layout_nested_scenario :
  (instrumenting_agents_ (host enabled_world) = true
   /\ layout_depth_ (agent enabled_world) = 0
   /\ well_nested (guards LayoutGuard) (int_max Int32) [] nested_layout_trace = true
   /\ 0 <= layout_count_ (agent enabled_world)
   /\ layout_count_ (agent enabled_world)
      + Z.of_nat (length (outer_spans [] nested_layout_trace)) <= int_max UInt64)
  /\ exists w' : World,
       run Int32 UInt64 nested_layout_trace enabled_world = Some w'
       /\ layout_duration_ (agent w') = 5%float
       /\ layout_count_ (agent w') = 1
       /\ layout_depth_ (agent w') = 0.
Proof.
  assert (H4 : 0 <= layout_count_ (agent enabled_world)) by now vm_compute.
  assert (H5 : layout_count_ (agent enabled_world)
               + Z.of_nat (length (outer_spans [] nested_layout_trace))
               <= int_max UInt64) by now vm_compute.
  split; [repeat split; assumption|].
  exact (proj1 (layout_credits_outer_spans Int32 UInt64 nested_layout_trace
                  enabled_world eq_refl eq_refl eq_refl H4 H5)).
Defined.

(** C2.  For every well-nested trace of style-recalculation begin/end
    events, nested or not, every end event adds the elapsed time of its own
    call (from that call's begin event) to [recalc_style_duration_] and one
    to [recalc_style_count_].  The scenario of spec 8 is
    [style_nested_scenario]. *)
Theorem style_credits_every_span (depth_ty count_ty : int_type) (limit : Z)
    (evs : list HostEvent) (w : World) :
  instrumenting_agents_ (host w) = true ->
  well_nested is_style limit [] evs = true ->
  0 <= recalc_style_count_ (agent w) ->
  recalc_style_count_ (agent w) + Z.of_nat (count_ends evs) <= int_max count_ty ->
  exists w' : World,
    run depth_ty count_ty evs w = Some w'
    /\ recalc_style_duration_ (agent w')
       = fold_left PrimFloat.add (own_spans [] evs)
           (recalc_style_duration_ (agent w))
    /\ recalc_style_count_ (agent w')
       = recalc_style_count_ (agent w) + Z.of_nat (count_ends evs).
Proof.
  destruct w as [a h ps]; cbn [agent host]; intros Hreg Hwn Hlo Hhi.
  pose proof (run_style depth_ty count_ty limit evs [] ps a h Hreg Hwn) as Hrun.
  cbn [style_probes map app] in Hrun.
  pose proof (own_spans_length is_style limit evs [] Hwn) as Hlen.
  eexists; split; [exact Hrun|]. cbn [agent]. split.
  - apply style_duration_credits.
  - rewrite <- Hlen in *. apply style_count_credits; assumption.
Qed.

Lemma style_nested_scenario :
  (instrumenting_agents_ (host enabled_world) = true
   /\ well_nested is_style 2 [] nested_style_trace = true
   /\ 0 <= recalc_style_count_ (agent enabled_world)
   /\ recalc_style_count_ (agent enabled_world)
      + Z.of_nat (count_ends nested_style_trace) <= int_max UInt64)
  /\ exists w' : World,
       run Int32 UInt64 nested_style_trace enabled_world = Some w'
       /\ recalc_style_duration_ (agent w') = 5%float
       /\ recalc_style_count_ (agent w') = 2.
Proof.
  assert (H3 : 0 <= recalc_style_count_ (agent enabled_world)) by now vm_compute.
  assert (H4 : recalc_style_count_ (agent enabled_world)
               + Z.of_nat (count_ends nested_style_trace) <= int_max UInt64)
    by now vm_compute.
  split; [repeat split; assumption|].
  exact (style_credits_every_span Int32 UInt64 2 nested_style_trace
           enabled_world eq_refl eq_refl H3 H4).
Defined.

(** C3.  While the agent observes the thread's tasks, a task begin event
    overwrites [task_start_time_] with its start time whatever was stored, and
    a task end event adds [end_time - start_time] to [task_duration_] when its
    start time compares equal ([==] on doubles) to the stored one and otherwise
    leaves the whole world as it was; neither event fails. *)
Theorem task_window_pairing (depth_ty count_ty : int_type) (w : World)
    (start_time end_time : float) :
  task_time_observers_ (host w) = true ->
  (exists w1 : World,
     step depth_ty count_ty (TaskBegin start_time) w = Some w1
     /\ task_start_time_ (agent w1) = start_time
     /\ counters (agent w1) = counters (agent w))
  /\ (exists w2 : World,
        step depth_ty count_ty (TaskEnd start_time end_time) w = Some w2
        /\ task_start_time_ (agent w2) = task_start_time_ (agent w)
        /\ if (task_start_time_ (agent w) =? start_time)%float
           then task_duration_ (agent w2)
                = (task_duration_ (agent w) + (end_time - start_time))%float
           else w2 = w).
Proof.
  intros Hobs. split.
  - eexists. cbn [step]. rewrite Hobs. split; [reflexivity|].
    split; reflexivity.
  - eexists. cbn [step]. rewrite Hobs. split; [reflexivity|].
    unfold DidProcessTask. cbn [agent].
    destruct (task_start_time_ (agent w) =? start_time)%float.
    + split; reflexivity.
    + split; [reflexivity|]. destruct w; reflexivity.
Qed.

Lemma task_pairing_scenario :
  task_time_observers_ (host task_begun_world) = true
  /\ exists w2 : World,
       step Int32 UInt64 (TaskEnd 10 15) task_begun_world = Some w2
       /\ task_duration_ (agent w2) = 5%float.
Proof.
  split; [reflexivity|].
  destruct (task_window_pairing Int32 UInt64 task_begun_world 10 15 eq_refl)
    as [_ [w2 [Hstep [_ Hadd]]]].
  exists w2. split; [exact Hstep | exact Hadd].
Defined.

(** Spec 8, task pairing, second half: after [onTaskBegin(20)] the end
    event [onTaskEnd(999, 1000)] changes nothing. *)
Example task_mismatch_scenario :
  exists w1 : World,
    step Int32 UInt64 (TaskBegin 20) task_begun_world = Some w1
    /\ task_start_time_ (agent w1) = 20%float
    /\ step Int32 UInt64 (TaskEnd 999 1000) w1 = Some w1.
Proof. eexists. repeat split. Qed.

(** C7.  While the agent is disabled, [getMetrics] reports success, returns
    the empty list, and leaves the whole world, the log of collaborator
    calls included, as it was. *)
Theorem getMetrics_disabled (INSTANCE_COUNTERS_LIST : list string) (w : World) :
  enabled_ (agent w) = false ->
  getMetrics INSTANCE_COUNTERS_LIST w = (OK, [], w).
Proof.
  intros Hoff. unfold getMetrics. rewrite Hoff. reflexivity.
Qed.

Lemma getMetrics_fresh_agent :
  enabled_ (agent (new_world (fun _ => 0%float) None)) = false
  /\ getMetrics ["Document"; "Node"] (new_world (fun _ => 0%float) None)
     = (OK, [], new_world (fun _ => 0%float) None).
Proof.
  split; [reflexivity|].
  apply (getMetrics_disabled ["Document"; "Node"]
           (new_world (fun _ => 0%float) None)).
  reflexivity.
Defined.

(** ** Enabling and disabling *)

(** What [enable] does to a disabled agent. *)
Lemma enable_when_disabled (w : World) :
  enabled_ (agent w) = false ->
  enable w
  = (OK,
     mkWorld (set_task_start_time 0 (set_enabled true (agent w)))
       (AddTaskTimeObserver
          (addInspectorPerformanceAgent
             (setBoolean kPerformanceAgentEnabled true (host w))))
       (probes w)).
Proof. intros Hoff. unfold enable. rewrite Hoff. reflexivity. Qed.

(** C8.  [enable] always reports success.  On an enabled agent it changes
    nothing.  On a disabled agent it sets [enabled_], persists the flag,
    registers the agent once with the instrumenting agents and once as task
    time observer (three collaborator calls, in this order), and resets the
    task window to its unset value [0]; counters and probes are left alone.
    A second [enable] changes nothing, so after two calls on a fresh agent
    each registration has happened exactly once. *)
Theorem enable_idempotent (w : World) (counter_value : nat -> float)
    (document : option Document) :
  fst (enable w) = OK
  /\ (if enabled_ (agent w)
      then snd (enable w) = w
      else enabled_ (agent (snd (enable w))) = true
           /\ state_ (host (snd (enable w))) !! kPerformanceAgentEnabled = Some true
           /\ instrumenting_agents_ (host (snd (enable w))) = true
           /\ task_time_observers_ (host (snd (enable w))) = true
           /\ calls (host (snd (enable w)))
              = calls (host w)
                ++ [call_setBoolean kPerformanceAgentEnabled true;
                    call_addInspectorPerformanceAgent;
                    call_AddTaskTimeObserver]
           /\ hook_registrations (host (snd (enable w)))
              = S (hook_registrations (host w))
           /\ observer_registrations (host (snd (enable w)))
              = S (observer_registrations (host w))
           /\ task_start_time_ (agent (snd (enable w))) = 0%float
           /\ counters (agent (snd (enable w))) = counters (agent w)
           /\ probes (snd (enable w)) = probes w)
  /\ enable (snd (enable w)) = (OK, snd (enable w))
  /\ hook_registrations
       (host (snd (enable (snd (enable (new_world counter_value document))))))
     = 1%nat
  /\ observer_registrations
       (host (snd (enable (snd (enable (new_world counter_value document))))))
     = 1%nat.
Proof.
  split; [|split; [|split]].
  - unfold enable. destruct (enabled_ (agent w)); reflexivity.
  - destruct (enabled_ (agent w)) eqn:Hen.
    + unfold enable. rewrite Hen. reflexivity.
    + rewrite (enable_when_disabled w Hen). cbn [snd agent host probes].
      repeat split.
      * cbn. apply lookup_insert_eq.
      * cbn. rewrite <- !app_assoc. reflexivity.
      * unfold hook_registrations, AddTaskTimeObserver,
          addInspectorPerformanceAgent, setBoolean, log; cbn [calls].
        rewrite !List.filter_app, !length_app. cbn. lia.
      * unfold observer_registrations, AddTaskTimeObserver,
          addInspectorPerformanceAgent, setBoolean, log; cbn [calls].
        rewrite !List.filter_app, !length_app. cbn. lia.
  - destruct (enabled_ (agent w)) eqn:Hen.
    + unfold enable at 2 3. rewrite Hen. cbn [snd].
      unfold enable. rewrite Hen. reflexivity.
    + rewrite (enable_when_disabled w Hen). reflexivity.
  - split; reflexivity.
Qed.

(** C9.  [disable] always reports success and leaves every count, duration
    and depth as it was; so does a following [enable].  On a disabled agent
    [disable] changes nothing at all. *)
Theorem disable_keeps_counters (w : World) :
  fst (disable w) = OK
  /\ counters (agent (snd (disable w))) = counters (agent w)
  /\ counters (agent (snd (enable (snd (disable w))))) = counters (agent w)
  /\ (if enabled_ (agent w)
      then enabled_ (agent (snd (disable w))) = false
      else snd (disable w) = w).
Proof.
  unfold disable, enable.
  destruct (enabled_ (agent w)) eqn:Hen; cbn [negb fst snd agent];
    repeat split; try reflexivity.
  rewrite Hen. reflexivity.
Qed.

(** C10.  After [enable] has switched a disabled agent on, the stored task
    window is the number [0]; a task end event that claims start time [0]
    then matches it, although no task begin event was seen, and adds
    [end_time - 0] to [task_duration_]. *)
Theorem enable_leaves_window_zero (depth_ty count_ty : int_type) (w : World)
    (end_time : float) :
  enabled_ (agent w) = false ->
  task_start_time_ (agent (snd (enable w))) = 0%float
  /\ exists w2 : World,
       step depth_ty count_ty (TaskEnd 0 end_time) (snd (enable w)) = Some w2
       /\ task_duration_ (agent w2)
          = (task_duration_ (agent w) + (end_time - 0))%float.
Proof.
  intros Hoff. rewrite (enable_when_disabled w Hoff). cbn [snd agent].
  split; [reflexivity|].
  eexists. split; reflexivity.
Qed.

Lemma task_end_without_begin :
  enabled_ (agent (new_world (fun _ => 0%float) None)) = false
  /\ exists w2 : World,
       step Int32 UInt64 (TaskEnd 0 7)
         (snd (enable (new_world (fun _ => 0%float) None))) = Some w2
       /\ task_duration_ (agent w2) = 7%float.
Proof.
  split; [reflexivity|].
  exact (proj2 (enable_leaves_window_zero Int32 UInt64
                  (new_world (fun _ => 0%float) None) 7 eq_refl)).
Defined.

(** ** The snapshot *)

Lemma ends_with_Count_append (name : string) :
  ends_with_Count (String.append name "Count") = true.
Proof.
  induction name as [|c name IH]; [reflexivity|].
  change (ends_with_Count (String c (String.append name "Count")) = true).
  cbn [ends_with_Count]. rewrite IH. apply orb_true_r.
Qed.

Lemma counter_metric_names (counter_value : nat -> float) (names : list string) :
  forall (i : nat) (m : Metric),
  In m (spec_counter_metrics counter_value i names) ->
  ends_with_Count (metric_name m) = true.
Proof.
  induction names as [|name names IH]; intros i m Hin; [destruct Hin|].
  destruct Hin as [<-|Hin]; [apply ends_with_Count_append | apply (IH _ _ Hin)].
Qed.

Lemma log_calls_one (c : HostCall) (h : Host) : log c h = log_calls [c] h.
Proof. reflexivity. Qed.

Lemma log_calls_twice (cs1 cs2 : list HostCall) (h : Host) :
  log_calls cs2 (log_calls cs1 h) = log_calls (cs1 ++ cs2) h.
Proof. unfold log_calls; cbn. rewrite <- app_assoc. reflexivity. Qed.

(** The loop over the instance counters appends one metric per name and logs
    one [CounterValue] call per index. *)
Lemma instance_counters_from_spec (names : list string) :
  forall (i : nat) (result : list Metric) (h : Host),
  instance_counters_from i
    (map (fun name => String.append name "Count") names) result h
  = (result ++ spec_counter_metrics (CounterValue h) i names,
     log_calls (map call_CounterValue (seq i (length names))) h).
Proof.
  induction names as [|name names IH]; intros i result h.
  - cbn. rewrite app_nil_r. destruct h; unfold log_calls; cbn.
    rewrite app_nil_r. reflexivity.
  - cbn [map instance_counters_from]. rewrite IH.
    rewrite log_calls_one, log_calls_twice.
    unfold AppendMetric. rewrite <- app_assoc. reflexivity.
Qed.

(** C6.  While the agent is enabled, [getMetrics] reports success and
    returns, in this order: one metric per instance counter, named after the
    counter with the suffix "Count", in enumeration order; the six metrics
    "LayoutCount", "RecalcStyleCount", "LayoutDuration", "RecalcStyleDuration",
    "ScriptDuration", "TaskDuration" with the agent's counts (converted to
    double) and durations; and "FirstMeaningfulPaint" and "DomContentLoaded"
    when the root frame has a document.  Without a document no metric of
    these two names is in the list.  The agent is not changed. *)
Theorem getMetrics_enabled (INSTANCE_COUNTERS_LIST : list string) (w : World) :
  enabled_ (agent w) = true ->
  getMetrics INSTANCE_COUNTERS_LIST w
  = (OK,
     spec_counter_metrics (CounterValue (host w)) 0 INSTANCE_COUNTERS_LIST
     ++ spec_fixed_metrics (agent w)
     ++ spec_timing_metrics (GetDocument (host w)),
     mkWorld (agent w)
       (log_calls (getMetrics_calls INSTANCE_COUNTERS_LIST (GetDocument (host w)))
          (host w))
       (probes w))
  /\ map metric_name (spec_fixed_metrics (agent w))
     = ["LayoutCount"; "RecalcStyleCount"; "LayoutDuration";
        "RecalcStyleDuration"; "ScriptDuration"; "TaskDuration"]%string
  /\ map metric_value (spec_fixed_metrics (agent w))
     = [double_of_Z (layout_count_ (agent w));
        double_of_Z (recalc_style_count_ (agent w));
        layout_duration_ (agent w); recalc_style_duration_ (agent w);
        script_duration_ (agent w); task_duration_ (agent w)]
  /\ forall m : Metric,
       In m (spec_counter_metrics (CounterValue (host w)) 0 INSTANCE_COUNTERS_LIST
             ++ spec_fixed_metrics (agent w)
             ++ spec_timing_metrics (GetDocument (host w))) ->
       (metric_name m = "FirstMeaningfulPaint"
        \/ metric_name m = "DomContentLoaded")%string ->
       exists d : Document,
         GetDocument (host w) = Some d
         /\ (m = mkMetric "FirstMeaningfulPaint" (FirstMeaningfulPaint d)
             \/ m = mkMetric "DomContentLoaded" (DomContentLoadedEventStart d)).
Proof.
  intros Hon. split; [|split; [reflexivity|split; [reflexivity|]]].
  - unfold getMetrics, kInstanceCounterNames. rewrite Hon. cbn [negb].
    rewrite instance_counters_from_spec.
    unfold AppendMetric, getMetrics_calls. cbn [app].
    rewrite !log_calls_one.
    destruct (GetDocument (host w)) as [d|] eqn:Hdoc; cbn [log_calls GetDocument];
      rewrite Hdoc; rewrite ?log_calls_twice; cbn [spec_timing_metrics];
      rewrite <- ?app_assoc; cbn [app]; rewrite ?app_nil_r; reflexivity.
  - intros m Hin Hname.
    apply in_app_or in Hin as [Hin|Hin].
    { apply counter_metric_names in Hin.
      destruct Hname as [Hname|Hname]; rewrite Hname in Hin; discriminate Hin. }
    apply in_app_or in Hin as [Hin|Hin].
    { cbn in Hin.
      destruct Hin as [<-|[<-|[<-|[<-|[<-|[<-|[]]]]]]];
        destruct Hname as [Hname|Hname]; discriminate Hname. }
    destruct (GetDocument (host w)) as [d|]; [|destruct Hin].
    exists d. split; [reflexivity|].
    cbn in Hin. destruct Hin as [<-|[<-|[]]]; [left | right]; reflexivity.
Qed.

Lemma getMetrics_snapshot :
  enabled_ (agent snapshot_world) = true
  /\ map (fun m => (metric_name m, metric_value m))
       (snd (fst (getMetrics ["Document"; "Node"] snapshot_world)))
     = [("DocumentCount", 3); ("NodeCount", 8);
        ("LayoutCount", 0); ("RecalcStyleCount", 0);
        ("LayoutDuration", 0); ("RecalcStyleDuration", 0);
        ("ScriptDuration", 0); ("TaskDuration", 0);
        ("FirstMeaningfulPaint", 1.5); ("DomContentLoaded", 0.75)]%string%float.
Proof.
  split; [reflexivity|].
  rewrite (proj1 (getMetrics_enabled ["Document"; "Node"] snapshot_world eq_refl)).
  reflexivity.
Defined.

(** Without a document the snapshot ends with "TaskDuration". *)
Example getMetrics_without_document :
  map metric_name (snd (fst (getMetrics ["Document"; "Node"] enabled_world)))
  = ["DocumentCount"; "NodeCount"; "LayoutCount"; "RecalcStyleCount";
     "LayoutDuration"; "RecalcStyleDuration"; "ScriptDuration";
     "TaskDuration"]%string.
Proof. reflexivity. Qed.

(** ** Unmatched end events *)

Lemma wrap_back_to_zero (ty : int_type) : wrap ty (wrap ty (0 - 1) + 1) = 0.
Proof. destruct ty; reflexivity. Qed.

(** The [Did] handler of a guarded class at depth [0]: the counter is
    decremented and nothing is credited. *)
Lemma Did_guarded_unmatched (depth_ty count_ty : int_type) (g : Guard)
    (k : ProbeKind) (a : Agent) (probe : Probe) (now : float) :
  guards g k = true ->
  depth_of g a = 0 ->
  Did depth_ty count_ty k a probe now
  = Some (set_depth g (wrap depth_ty (0 - 1)) a).
Proof.
  intros Hk Hd. pose proof (wrap_minus_one_nonzero depth_ty) as Hne.
  apply Z.eqb_neq in Hne.
  destruct g, k; try discriminate Hk; cbn in Hd |- *;
    unfold Did_CallFunction, Did_ExecuteScript, Did_UpdateLayout; cbn;
    rewrite Hd, Hne; reflexivity.
Qed.

(** The [Will] handler of a guarded class when the counter is one below
    zero: the counter comes back to [0] and no start time is captured. *)
Lemma Will_guarded_offset (depth_ty : int_type) (g : Guard)
    (k : ProbeKind) (a : Agent) (now : float) :
  guards g k = true ->
  depth_of g a = wrap depth_ty (0 - 1) ->
  Will depth_ty k a new_probe now = (set_depth g 0 a, new_probe).
Proof.
  intros Hk Hd. pose proof (wrap_minus_one_nonzero depth_ty) as Hne.
  apply Z.eqb_neq in Hne. pose proof (wrap_back_to_zero depth_ty) as Hback.
  destruct g, k; try discriminate Hk; cbn in Hd |- *;
    unfold Will_CallFunction, Will_ExecuteScript, Will_UpdateLayout;
    rewrite Hd, Hne, Hback; reflexivity.
Qed.

(** C4, as claimed, fails.  A layout is in progress when the agent is
    enabled; its end event reaches [Did] with [layout_depth_] at [0].  The
    counter is decremented all the same: to [-1] when it is a signed [int],
    around to [4294967295] when it is unsigned.  The layout that follows, from
    3 to 7, is then not accounted at all, whereas the same layout seen by an
    agent with a clean counter adds 4 to the duration and 1 to the count. *)
Lemma unmatched_end_corrupts_layout :
  run Int32 UInt64 [Begin UpdateLayout 1] (new_world (fun _ => 0%float) None)
  = Some layout_in_progress_world
  /\ (exists w' : World,
        run Int32 UInt64 unmatched_end_trace enabled_during_layout_world = Some w'
        /\ layout_depth_ (agent w') = -1
        /\ layout_duration_ (agent w') = 0%float
        /\ layout_count_ (agent w') = 0)
  /\ (exists w' : World,
        run UInt32 UInt64 unmatched_end_trace enabled_during_layout_world = Some w'
        /\ layout_depth_ (agent w') = 4294967295
        /\ layout_duration_ (agent w') = 0%float
        /\ layout_count_ (agent w') = 0)
  /\ (exists w' : World,
        run Int32 UInt64 [Begin UpdateLayout 3; End UpdateLayout 7] enabled_world
        = Some w'
        /\ layout_depth_ (agent w') = 0
        /\ layout_duration_ (agent w') = 4%float
        /\ layout_count_ (agent w') = 1).
Proof.
  split; [reflexivity|].
  split; [|split]; eexists; (split; [vm_compute; reflexivity|]);
    repeat split; reflexivity.
Qed.

(** C4, amended.  For every trace of begin/end events of a guarded category
    in which every end event closes a span whose begin event the agent saw,
    the depth counter equals the number of open spans, so it is never
    negative.  There is no guard for an end event without begin event: at
    depth [0] it still decrements the counter, which leaves [0] (below it if
    the counter is signed, around to the maximum if it is unsigned), and a
    following begin/end pair of the category brings it to [0] and away from
    it again without crediting anything. *)
Theorem guarded_depth_counts_open_spans (depth_ty count_ty : int_type)
    (g : Guard) (w : World) (evs : list HostEvent) :
  instrumenting_agents_ (host w) = true ->
  depth_of g (agent w) = 0 ->
  well_nested (guards g) (int_max depth_ty) [] evs = true ->
  (exists w' : World,
     run depth_ty count_ty evs w = Some w'
     /\ depth_of g (agent w') = Z.of_nat (length (open_after [] evs))
     /\ 0 <= depth_of g (agent w'))
  /\ wrap depth_ty (0 - 1) <> 0
  /\ forall (k : ProbeKind) (probe : Probe) (rest : list (ProbeKind * Probe))
       (t0 t1 t2 : float),
       guards g k = true ->
       probes w = (k, probe) :: rest ->
       run depth_ty count_ty [End k t0; Begin k t1; End k t2] w
       = Some (mkWorld (set_depth g (wrap depth_ty (0 - 1)) (agent w))
                 (host w) rest).
Proof.
  destruct w as [a h ps]; cbn [agent host probes].
  intros Hreg Hdepth Hwn.
  split; [|split].
  - pose proof (run_guarded depth_ty count_ty g evs [] ps a h Hreg Hdepth)
      as Hrun.
    cbn [guarded_probes app length] in Hrun.
    specialize (Hrun ltac:(pose proof (int_max_large depth_ty); lia) Hwn).
    eexists; split; [exact Hrun|]. cbn [agent].
    rewrite depth_of_set_depth. split; [reflexivity | lia].
  - apply wrap_minus_one_nonzero.
  - intros k probe rest t0 t1 t2 Hk Hps.
    subst ps. cbn [run step agent host probes].
    rewrite decide_True by reflexivity. rewrite Hreg.
    rewrite (Did_guarded_unmatched depth_ty count_ty g k a probe t0 Hk Hdepth).
    cbn [agent host probes]. rewrite Hreg.
    rewrite (Will_guarded_offset depth_ty g k _ t1 Hk)
      by apply depth_of_set_depth.
    cbn [agent host probes].
    rewrite decide_True by reflexivity. rewrite Hreg.
    rewrite (Did_guarded_unmatched depth_ty count_ty g k _ new_probe t2 Hk)
      by apply depth_of_set_depth.
    rewrite !set_depth_twice. reflexivity.
Qed.

Lemma guarded_depth_scenario :
  (instrumenting_agents_ (host enabled_during_layout_world) = true
   /\ depth_of LayoutGuard (agent enabled_during_layout_world) = 0
   /\ well_nested (guards LayoutGuard) (int_max Int32) [] nested_layout_trace = true)
  /\ (exists w' : World,
        run Int32 UInt64 nested_layout_trace enabled_during_layout_world = Some w'
        /\ depth_of LayoutGuard (agent w') = 0
        /\ 0 <= depth_of LayoutGuard (agent w'))
  /\ run Int32 UInt64 unmatched_end_trace enabled_during_layout_world
     = Some (mkWorld (set_depth LayoutGuard (-1)
                        (agent enabled_during_layout_world))
               (host enabled_during_layout_world) []).
Proof.
  split; [repeat split|].
  destruct (guarded_depth_counts_open_spans Int32 UInt64 LayoutGuard
              enabled_during_layout_world nested_layout_trace
              eq_refl eq_refl eq_refl) as [Hpos [_ Hneg]].
  split; [exact Hpos|].
  exact (Hneg UpdateLayout new_probe [] 2%float 3%float 7%float eq_refl eq_refl).
Defined.

(** ** Function calls inside script execution *)

(** C5, as claimed, fails.  A function call that begins at 1 and ends at 3
    while a script execution, begun at 0, is open: the one counter
    [script_call_depth_] goes from 1 to 2 and back to 1 (there is no
    counter of its own that would go from 0 to 1), the probe of the function
    call has no captured start, and nothing is added to [script_duration_]
    when the call ends. *)
Lemma function_call_shares_script_depth :
  exists w1 w2 w3 : World,
    step Int32 UInt64 (Begin ExecuteScript 0) enabled_world = Some w1
    /\ script_call_depth_ (agent w1) = 1
    /\ step Int32 UInt64 (Begin CallFunction 1) w1 = Some w2
    /\ script_call_depth_ (agent w2) = 2
    /\ probes w2 = [(CallFunction, mkProbe None);
                    (ExecuteScript, mkProbe (Some 0%float))]
    /\ step Int32 UInt64 (End CallFunction 3) w2 = Some w3
    /\ script_call_depth_ (agent w3) = 1
    /\ script_duration_ (agent w3) = 0%float
    /\ counters (agent w3) = counters (agent w1).
Proof.
  do 3 eexists.
  split; [vm_compute; reflexivity|]. split; [reflexivity|].
  split; [vm_compute; reflexivity|]. split; [reflexivity|].
  split; [reflexivity|].
  split; [vm_compute; reflexivity|]. repeat split; reflexivity.
Qed.

(** Closes [well_nested kinds (int_max ty) open evs = true] for a concrete
    short trace. *)
Ltac solve_nested ty :=
  cbn [well_nested guards is_style];
  repeat (apply andb_true_intro; split);
  try reflexivity;
  try (apply bool_decide_eq_true; reflexivity);
  apply Z.leb_le; cbn [length]; pose proof (int_max_large ty); lia.

(** C5, amended.  Function invocation and script execution share one depth
    counter, [script_call_depth_], and one duration, [script_duration_]; the
    layout category has counters of its own, which script events do not
    touch.  From a state with no script in progress: the script execution
    takes the shared depth from 0 to 1 and its probe captures the start time;
    a function call inside it takes the depth from 1 to 2 and back, captures
    no start time and adds nothing; the end of the script execution takes the
    depth back to 0 and adds the wall time of the whole script execution to
    [script_duration_].  Nothing else of the agent changes. *)
Theorem function_call_inside_script (depth_ty count_ty : int_type) (w : World)
    (t0 t1 t2 t3 : float) :
  instrumenting_agents_ (host w) = true ->
  script_call_depth_ (agent w) = 0 ->
  run depth_ty count_ty [Begin ExecuteScript t0] w
  = Some (mkWorld (set_script_call_depth 1 (agent w)) (host w)
            ((ExecuteScript, mkProbe (Some t0)) :: probes w))
  /\ run depth_ty count_ty [Begin ExecuteScript t0; Begin CallFunction t1] w
     = Some (mkWorld (set_script_call_depth 2 (agent w)) (host w)
               ((CallFunction, mkProbe None)
                :: (ExecuteScript, mkProbe (Some t0)) :: probes w))
  /\ run depth_ty count_ty
       [Begin ExecuteScript t0; Begin CallFunction t1; End CallFunction t2] w
     = Some (mkWorld (set_script_call_depth 1 (agent w)) (host w)
               ((ExecuteScript, mkProbe (Some t0)) :: probes w))
  /\ run depth_ty count_ty
       [Begin ExecuteScript t0; Begin CallFunction t1; End CallFunction t2;
        End ExecuteScript t3] w
     = Some (mkWorld
               (set_script_duration (script_duration_ (agent w) + (t3 - t0))%float
                  (agent w))
               (host w) (probes w)).
Proof.
  destruct w as [a h ps]; cbn [agent host probes]; intros Hreg Hdepth.
  pose proof (fun evs Hwn =>
    run_guarded depth_ty count_ty ScriptGuard evs [] ps a h Hreg Hdepth
      ltac:(pose proof (int_max_large depth_ty); cbn [length]; lia) Hwn)
    as Hrun.
  cbn [guarded_probes app] in Hrun.
  split; [|split; [|split]]; rewrite Hrun by solve_nested depth_ty.
  - reflexivity.
  - reflexivity.
  - reflexivity.
  - cbn [open_after outer_spans tail fold_left length credit set_depth
         Z.of_nat].
    f_equal. f_equal. destruct a; cbn in Hdepth |- *; subst; reflexivity.
Qed.

Lemma function_call_inside_script_scenario :
  (instrumenting_agents_ (host enabled_world) = true
   /\ script_call_depth_ (agent enabled_world) = 0)
  /\ exists w4 : World,
       run Int32 UInt64
         [Begin ExecuteScript 0; Begin CallFunction 1; End CallFunction 3;
          End ExecuteScript 5] enabled_world = Some w4
       /\ script_duration_ (agent w4) = 5%float
       /\ script_call_depth_ (agent w4) = 0.
Proof.
  split; [repeat split|].
  eexists. split.
  - exact (proj2 (proj2 (proj2
             (function_call_inside_script Int32 UInt64 enabled_world 0 1 3 5
                eq_refl eq_refl)))).
  - split; reflexivity.
Defined.

(** * Further properties of the agent *)

(** ** Commands, persistence and registration *)

Lemma log_calls_nil (h : Host) : log_calls [] h = h.
Proof. destruct h; unfold log_calls; cbn. rewrite app_nil_r. reflexivity. Qed.

(** What [disable] does to an enabled agent. *)
Lemma disable_when_enabled (w : World) :
  enabled_ (agent w) = true ->
  disable w
  = (OK,
     mkWorld (set_enabled false (agent w))
       (RemoveTaskTimeObserver
          (removeInspectorPerformanceAgent
             (setBoolean kPerformanceAgentEnabled false (host w))))
       (probes w)).
Proof. intros Hon. unfold disable. rewrite Hon. reflexivity. Qed.

(** What [getMetrics] does to the world of an enabled agent. *)
Lemma getMetrics_when_enabled (INSTANCE_COUNTERS_LIST : list string) (w : World) :
  enabled_ (agent w) = true ->
  getMetrics INSTANCE_COUNTERS_LIST w
  = (OK,
     spec_counter_metrics (CounterValue (host w)) 0 INSTANCE_COUNTERS_LIST
     ++ spec_fixed_metrics (agent w)
     ++ spec_timing_metrics (GetDocument (host w)),
     mkWorld (agent w)
       (log_calls (getMetrics_calls INSTANCE_COUNTERS_LIST (GetDocument (host w)))
          (host w))
       (probes w)).
Proof.
  intros Hon. unfold getMetrics, kInstanceCounterNames. rewrite Hon. cbn [negb].
  rewrite instance_counters_from_spec.
  unfold AppendMetric, getMetrics_calls. cbn [app].
  rewrite !log_calls_one.
  destruct (GetDocument (host w)) as [d|] eqn:Hdoc; cbn [log_calls GetDocument];
    rewrite Hdoc; rewrite ?log_calls_twice; cbn [spec_timing_metrics];
    rewrite <- ?app_assoc; cbn [app]; rewrite ?app_nil_r; reflexivity.
Qed.

(** [getMetrics] touches nothing but the log of collaborator calls. *)
Lemma getMetrics_only_logs (INSTANCE_COUNTERS_LIST : list string) (w : World) :
  exists cs : list HostCall,
    snd (getMetrics INSTANCE_COUNTERS_LIST w)
    = mkWorld (agent w) (log_calls cs (host w)) (probes w).
Proof.
  destruct (enabled_ (agent w)) eqn:Hen.
  - eexists. rewrite (getMetrics_when_enabled _ w Hen). reflexivity.
  - exists []. unfold getMetrics. rewrite Hen. cbn [negb snd].
    rewrite log_calls_nil. destruct w; reflexivity.
Qed.

(** [ConsoleTimeStamp] touches nothing but the log of collaborator calls. *)
Lemma ConsoleTimeStamp_only_logs (INSTANCE_COUNTERS_LIST : list string)
    (title : string) (w : World) :
  exists cs : list HostCall,
    ConsoleTimeStamp INSTANCE_COUNTERS_LIST title w
    = mkWorld (agent w) (log_calls cs (host w)) (probes w).
Proof.
  unfold ConsoleTimeStamp.
  destruct (enabled_ (agent w)) eqn:Hen; cbn [negb].
  - rewrite (getMetrics_when_enabled _ w Hen). cbn [agent host probes].
    rewrite log_calls_one, log_calls_twice. eexists. reflexivity.
  - exists []. rewrite log_calls_nil. destruct w; reflexivity.
Qed.

Lemma in_sync_only_logs (cs : list HostCall) (w : World) :
  in_sync w -> in_sync (mkWorld (agent w) (log_calls cs (host w)) (probes w)).
Proof. intros Hs. exact Hs. Qed.

Lemma in_sync_enable (w : World) : in_sync w -> in_sync (snd (enable w)).
Proof.
  intros Hs. destruct (enabled_ (agent w)) eqn:Hen.
  - unfold enable. rewrite Hen. exact Hs.
  - rewrite (enable_when_disabled w Hen). repeat split. cbn.
    rewrite lookup_insert_eq. reflexivity.
Qed.

Lemma in_sync_disable (w : World) : in_sync w -> in_sync (snd (disable w)).
Proof.
  intros Hs. destruct (enabled_ (agent w)) eqn:Hen.
  - rewrite (disable_when_enabled w Hen). repeat split. cbn.
    rewrite lookup_insert_eq. reflexivity.
  - unfold disable. rewrite Hen. exact Hs.
Qed.

(** On a world in which flag, registrations and persisted flag agree,
    [Restore] only logs its read of the persisted flag. *)
Lemma Restore_in_sync (w : World) :
  in_sync w ->
  Restore w
  = mkWorld (agent w)
      (log_calls [call_booleanProperty kPerformanceAgentEnabled false] (host w))
      (probes w).
Proof.
  intros (_ & _ & Hflag). unfold Restore, booleanProperty.
  rewrite Hflag, log_calls_one.
  destruct (enabled_ (agent w)) eqn:Hen; [|reflexivity].
  unfold enable. cbn [agent]. rewrite Hen. reflexivity.
Qed.

Lemma in_sync_exec (INSTANCE_COUNTERS_LIST : list string) (c : Command)
    (w : World) :
  in_sync w -> in_sync (exec INSTANCE_COUNTERS_LIST c w).
Proof.
  intros Hs. destruct c as [| | | |title]; cbn [exec].
  - apply in_sync_enable, Hs.
  - apply in_sync_disable, Hs.
  - rewrite (Restore_in_sync w Hs). apply in_sync_only_logs, Hs.
  - destruct (getMetrics_only_logs INSTANCE_COUNTERS_LIST w) as [cs ->].
    apply in_sync_only_logs, Hs.
  - destruct (ConsoleTimeStamp_only_logs INSTANCE_COUNTERS_LIST title w)
      as [cs ->].
    apply in_sync_only_logs, Hs.
Qed.

(** X1.  Whatever commands reach the agent, in whatever order, the agent's
    [enabled_] flag, its registration with the instrumenting agents, its
    registration as task time observer and the persisted flag stay in
    agreement once they agree, as they do for a new agent: probes and task
    events are delivered exactly while the agent is enabled. *)
Theorem commands_keep_in_sync (INSTANCE_COUNTERS_LIST : list string)
    (cs : list Command) (w : World) :
  in_sync w -> in_sync (exec_all INSTANCE_COUNTERS_LIST cs w).
Proof.
  unfold exec_all. revert w.
  induction cs as [|c cs IH]; intros w Hs; [exact Hs|].
  cbn [fold_left]. apply IH, in_sync_exec, Hs.
Qed.

Lemma commands_keep_in_sync_new_agent :
  in_sync (new_world (fun _ => 0%float) None)
  /\ in_sync (exec_all ["Document"]
                [CmdRestore; CmdEnable; CmdGetMetrics; CmdEnable; CmdDisable;
                 CmdConsoleTimeStamp "mark"; CmdRestore]
                (new_world (fun _ => 0%float) None)).
Proof.
  assert (H0 : in_sync (new_world (fun _ => 0%float) None))
    by (repeat split).
  split; [exact H0|].
  exact (commands_keep_in_sync ["Document"]
           [CmdRestore; CmdEnable; CmdGetMetrics; CmdEnable; CmdDisable;
            CmdConsoleTimeStamp "mark"; CmdRestore]
           (new_world (fun _ => 0%float) None) H0).
Defined.

(** X2.  The persisted flag carries the agent's state into the next
    session.  If the agent was disabled and is enabled, a new agent that
    restores from the persisted state comes up enabled and registered; if it
    was enabled and is disabled, the new agent stays as constructed; and a
    state in which the flag was never written restores to a disabled agent
    (the missing key reads as false).  In every case the restored world has
    flag, registrations and persisted flag in agreement. *)
Theorem persisted_flag_round_trip (w : World) (counter_value : nat -> float)
    (document : option Document) :
  (if enabled_ (agent w)
   then agent (Restore (new_session (host (snd (disable w))))) = new_agent
        /\ in_sync (Restore (new_session (host (snd (disable w)))))
   else enabled_ (agent (Restore (new_session (host (snd (enable w)))))) = true
        /\ counters (agent (Restore (new_session (host (snd (enable w))))))
           = counters new_agent
        /\ in_sync (Restore (new_session (host (snd (enable w))))))
  /\ agent (Restore (new_world counter_value document)) = new_agent
  /\ in_sync (Restore (new_world counter_value document)).
Proof.
  split; [|split; [reflexivity | repeat split]].
  destruct (enabled_ (agent w)) eqn:Hen.
  - rewrite (disable_when_enabled w Hen).
    unfold Restore, new_session, booleanProperty; cbn.
    rewrite lookup_insert_eq. cbn. repeat split.
    cbn. rewrite lookup_insert_eq. reflexivity.
  - rewrite (enable_when_disabled w Hen).
    unfold Restore, new_session, booleanProperty; cbn.
    rewrite lookup_insert_eq. cbn. repeat split.
    cbn. rewrite insert_insert_eq, lookup_insert_eq. reflexivity.
Qed.

(** X3.  Enabling a disabled agent and disabling it again gives back the
    agent it was, except that the task window is reset to [0]; both
    registrations are off again, the persisted flag is false, and the six
    collaborator calls happen in the order persist, register, register,
    persist, unregister, unregister. *)
Theorem enable_then_disable (w : World) :
  enabled_ (agent w) = false ->
  agent (snd (disable (snd (enable w)))) = set_task_start_time 0 (agent w)
  /\ instrumenting_agents_ (host (snd (disable (snd (enable w))))) = false
  /\ task_time_observers_ (host (snd (disable (snd (enable w))))) = false
  /\ state_ (host (snd (disable (snd (enable w))))) !! kPerformanceAgentEnabled
     = Some false
  /\ calls (host (snd (disable (snd (enable w)))))
     = calls (host w)
       ++ [call_setBoolean kPerformanceAgentEnabled true;
           call_addInspectorPerformanceAgent;
           call_AddTaskTimeObserver;
           call_setBoolean kPerformanceAgentEnabled false;
           call_removeInspectorPerformanceAgent;
           call_RemoveTaskTimeObserver]
  /\ probes (snd (disable (snd (enable w)))) = probes w.
Proof.
  intros Hoff. rewrite (enable_when_disabled w Hoff).
  rewrite disable_when_enabled by reflexivity. cbn [snd agent host probes].
  repeat split.
  - destruct w as [a h ps]; destruct a; cbn in Hoff |- *. subst. reflexivity.
  - cbn. apply lookup_insert_eq.
  - cbn. rewrite <- !app_assoc. reflexivity.
Qed.

Lemma enable_then_disable_new_agent :
  enabled_ (agent (new_world (fun _ => 0%float) None)) = false
  /\ agent (snd (disable (snd (enable (new_world (fun _ => 0%float) None)))))
     = new_agent
  /\ length (calls (host (snd (disable (snd (enable
               (new_world (fun _ => 0%float) None))))))) = 6%nat.
Proof.
  split; [reflexivity|].
  destruct (enable_then_disable (new_world (fun _ => 0%float) None) eq_refl)
    as (Hagent & _ & _ & _ & Hcalls & _).
  split; [exact Hagent|]. rewrite Hcalls. reflexivity.
Defined.

(** X4.  A disable/enable cycle forgets the task in progress.  A task that
    begins at [start_time] and ends at [end_time] is credited when nothing
    happens in between; if the agent is disabled and enabled again between
    the two events, the stored window is [0] and the end event, whose start
    time does not compare equal to [0], adds nothing. *)
Theorem disable_enable_forgets_task (depth_ty count_ty : int_type) (w : World)
    (start_time end_time : float) :
  enabled_ (agent w) = true ->
  task_time_observers_ (host w) = true ->
  (start_time =? start_time)%float = true ->
  (0 =? start_time)%float = false ->
  (exists w2 : World,
     run depth_ty count_ty [TaskBegin start_time; TaskEnd start_time end_time] w
     = Some w2
     /\ task_duration_ (agent w2)
        = (task_duration_ (agent w) + (end_time - start_time))%float)
  /\ exists w1 w2 : World,
       step depth_ty count_ty (TaskBegin start_time) w = Some w1
       /\ step depth_ty count_ty (TaskEnd start_time end_time)
            (snd (enable (snd (disable w1)))) = Some w2
       /\ task_duration_ (agent w2) = task_duration_ (agent w)
       /\ task_time_observers_ (host w2) = true.
Proof.
  intros Hon Hobs Hself Hzero. split.
  - eexists. cbn [run step]. rewrite Hobs. cbn [host]. rewrite Hobs.
    split; [reflexivity|].
    unfold DidProcessTask, WillProcessTask. cbn. rewrite Hself. reflexivity.
  - eexists. eexists. cbn [step]. rewrite Hobs.
    split; [reflexivity|].
    rewrite disable_when_enabled by exact Hon.
    rewrite enable_when_disabled by reflexivity.
    cbn. unfold DidProcessTask. cbn. rewrite Hzero.
    repeat split.
Qed.

Lemma disable_enable_forgets_task_scenario :
  (enabled_ (agent enabled_world) = true
   /\ task_time_observers_ (host enabled_world) = true
   /\ (10 =? 10)%float = true
   /\ (0 =? 10)%float = false)
  /\ (exists w2 : World,
        run Int32 UInt64 [TaskBegin 10; TaskEnd 10 15] enabled_world = Some w2
        /\ task_duration_ (agent w2) = 5%float)
  /\ exists w1 w2 : World,
       step Int32 UInt64 (TaskBegin 10) enabled_world = Some w1
       /\ step Int32 UInt64 (TaskEnd 10 15) (snd (enable (snd (disable w1))))
          = Some w2
       /\ task_duration_ (agent w2) = 0%float
       /\ task_time_observers_ (host w2) = true.
Proof.
  split; [repeat split|].
  exact (disable_enable_forgets_task Int32 UInt64 enabled_world 10 15
           eq_refl eq_refl eq_refl eq_refl).
Defined.

(** X5.  While the agent is enabled, [ConsoleTimeStamp] makes the
    collaborator calls of one [getMetrics] and then exactly one push to the
    frontend, which carries the title and the full ordered metric list that
    [getMetrics] returns at that moment; the agent is not changed.  While the
    agent is disabled it changes nothing and pushes nothing. *)
Theorem ConsoleTimeStamp_pushes_snapshot (INSTANCE_COUNTERS_LIST : list string)
    (title : string) (w : World) :
  agent (ConsoleTimeStamp INSTANCE_COUNTERS_LIST title w) = agent w
  /\ probes (ConsoleTimeStamp INSTANCE_COUNTERS_LIST title w) = probes w
  /\ if enabled_ (agent w)
     then calls (host (ConsoleTimeStamp INSTANCE_COUNTERS_LIST title w))
          = calls (host w)
            ++ getMetrics_calls INSTANCE_COUNTERS_LIST (GetDocument (host w))
            ++ [call_frontend_metrics
                  (snd (fst (getMetrics INSTANCE_COUNTERS_LIST w))) title]
          /\ snd (fst (getMetrics INSTANCE_COUNTERS_LIST w))
             = spec_counter_metrics (CounterValue (host w)) 0
                 INSTANCE_COUNTERS_LIST
               ++ spec_fixed_metrics (agent w)
               ++ spec_timing_metrics (GetDocument (host w))
     else ConsoleTimeStamp INSTANCE_COUNTERS_LIST title w = w.
Proof.
  unfold ConsoleTimeStamp.
  destruct (enabled_ (agent w)) eqn:Hen; cbn [negb].
  - rewrite (getMetrics_when_enabled _ w Hen). cbn [agent host probes fst snd].
    repeat split. cbn. rewrite <- app_assoc. reflexivity.
  - repeat split.
Qed.

(** X6.  Taking a snapshot changes neither the agent nor what the next
    snapshot returns: a second [getMetrics], and one taken after a
    [ConsoleTimeStamp], return the same list as the first. *)
Theorem getMetrics_repeatable (INSTANCE_COUNTERS_LIST : list string)
    (title : string) (w : World) :
  agent (snd (getMetrics INSTANCE_COUNTERS_LIST w)) = agent w
  /\ snd (fst (getMetrics INSTANCE_COUNTERS_LIST
                 (snd (getMetrics INSTANCE_COUNTERS_LIST w))))
     = snd (fst (getMetrics INSTANCE_COUNTERS_LIST w))
  /\ snd (fst (getMetrics INSTANCE_COUNTERS_LIST
                 (ConsoleTimeStamp INSTANCE_COUNTERS_LIST title w)))
     = snd (fst (getMetrics INSTANCE_COUNTERS_LIST w)).
Proof.
  destruct (getMetrics_only_logs INSTANCE_COUNTERS_LIST w) as [cs1 H1].
  destruct (ConsoleTimeStamp_only_logs INSTANCE_COUNTERS_LIST title w)
    as [cs2 H2].
  rewrite H1, H2. cbn [agent]. split; [reflexivity|].
  destruct (enabled_ (agent w)) eqn:Hen.
  - rewrite !getMetrics_when_enabled by exact Hen. split; reflexivity.
  - unfold getMetrics. cbn [agent]. rewrite Hen. split; reflexivity.
Qed.

(** ** More on the guarded handlers *)

Lemma script_credits_fold (count_ty : int_type) (spans : list float) (a : Agent) :
  fold_left (credit count_ty ScriptGuard) spans a
  = set_script_duration (fold_left PrimFloat.add spans (script_duration_ a)) a.
Proof.
  revert a; induction spans as [|s spans IH]; intros a.
  - destruct a; reflexivity.
  - cbn [fold_left]. rewrite IH. reflexivity.
Qed.

(** X7.  For every well-nested trace of function-call and script-execution
    events, in any mixture, run from a state with no script in progress,
    [script_duration_] grows exactly by the wall times of the outermost
    spans that the trace closes, whichever of the two classes opens them; the
    shared depth counter equals the number of open spans; no count is kept
    and nothing else of the agent changes. *)
Theorem script_credits_outer_spans (depth_ty count_ty : int_type)
    (evs : list HostEvent) (w : World) :
  instrumenting_agents_ (host w) = true ->
  script_call_depth_ (agent w) = 0 ->
  well_nested (guards ScriptGuard) (int_max depth_ty) [] evs = true ->
  exists w' : World,
    run depth_ty count_ty evs w = Some w'
    /\ agent w'
       = set_script_call_depth (Z.of_nat (length (open_after [] evs)))
           (set_script_duration
              (fold_left PrimFloat.add (outer_spans [] evs)
                 (script_duration_ (agent w)))
              (agent w))
    /\ host w' = host w.
Proof.
  destruct w as [a h ps]; cbn [agent host]; intros Hreg Hdepth Hwn.
  pose proof (run_guarded depth_ty count_ty ScriptGuard evs [] ps a h Hreg Hdepth)
    as Hrun.
  cbn [guarded_probes app length] in Hrun.
  specialize (Hrun ltac:(pose proof (int_max_large depth_ty); lia) Hwn).
  eexists; split; [exact Hrun|]. cbn [agent host set_depth].
  rewrite script_credits_fold. split; reflexivity.
Qed.

Lemma script_credits_scenario :
  (instrumenting_agents_ (host enabled_world) = true
   /\ script_call_depth_ (agent enabled_world) = 0
   /\ well_nested (guards ScriptGuard) (int_max Int32) []
        [Begin CallFunction 0; Begin ExecuteScript 1; End ExecuteScript 2;
         End CallFunction 4; Begin ExecuteScript 5; End ExecuteScript 6] = true)
  /\ exists w' : World,
       run Int32 UInt64
         [Begin CallFunction 0; Begin ExecuteScript 1; End ExecuteScript 2;
          End CallFunction 4; Begin ExecuteScript 5; End ExecuteScript 6]
         enabled_world = Some w'
       /\ agent w' = set_script_duration 5 (agent enabled_world)
       /\ host w' = host enabled_world.
Proof.
  split; [repeat split|].
  exact (script_credits_outer_spans Int32 UInt64
           [Begin CallFunction 0; Begin ExecuteScript 1; End ExecuteScript 2;
            End CallFunction 4; Begin ExecuteScript 5; End ExecuteScript 6]
           enabled_world eq_refl eq_refl eq_refl).
Defined.

Section GuardedOffset.

Variables depth_ty count_ty : int_type.
Variable g : Guard.

(** A well-nested trace of one guard, run from a state whose depth counter
    is [offset >= 1] above the number of open spans: nothing is captured and
    nothing is credited. *)
Lemma run_guarded_offset (offset : Z) (evs : list HostEvent) :
  forall (open : list (ProbeKind * float)) (base : list (ProbeKind * Probe))
         (a : Agent) (h : Host),
  instrumenting_agents_ h = true ->
  1 <= offset ->
  depth_of g a = offset + Z.of_nat (length open) ->
  offset + Z.of_nat (length open) <= int_max depth_ty ->
  well_nested (guards g) (int_max depth_ty - offset) open evs = true ->
  run depth_ty count_ty evs (mkWorld a h (uncaptured_probes open ++ base))
  = Some (mkWorld
            (set_depth g (offset + Z.of_nat (length (open_after open evs))) a)
            h (uncaptured_probes (open_after open evs) ++ base)).
Proof.
  induction evs as [|ev evs IH]; intros open base a h Hreg Hoff Hdepth Hmax Hwn.
  - simpl. rewrite <- Hdepth, set_depth_same. reflexivity.
  - destruct ev as [k now|k now|st|st en]; simpl in Hwn; try discriminate Hwn.
    + apply andb_prop in Hwn as [Hwn Hrest].
      apply andb_prop in Hwn as [Hk Hlim]. apply Z.leb_le in Hlim.
      cbn [run step agent host probes]. rewrite Hreg.
      rewrite (Will_guarded depth_ty g k a now Hk) by lia.
      destruct (Z.eqb_spec (depth_of g a) 0) as [Hz|_]; [lia|].
      change ((k, new_probe) :: uncaptured_probes open ++ base)
        with (uncaptured_probes ((k, now) :: open) ++ base).
      rewrite (IH ((k, now) :: open) base); try assumption.
      * cbn [open_after]. rewrite set_depth_twice. reflexivity.
      * rewrite depth_of_set_depth, Hdepth. cbn [length]. lia.
      * cbn [length]. lia.
    + destruct open as [|[k' start] open']; [discriminate Hwn|].
      apply andb_prop in Hwn as [Hwn Hrest].
      apply andb_prop in Hwn as [Hk Heq]. apply bool_decide_eq_true in Heq.
      subst k'. cbn [length] in Hdepth, Hmax.
      cbn [run step agent host probes uncaptured_probes map app fst].
      rewrite decide_True by reflexivity. rewrite Hreg.
      rewrite (Did_guarded_inner depth_ty count_ty g k a _ now Hk) by lia.
      rewrite (IH open' base); try assumption.
      * cbn [open_after tail]. rewrite set_depth_twice. reflexivity.
      * rewrite depth_of_set_depth, Hdepth. lia.
      * lia.
Qed.

End GuardedOffset.

(** X8.  A depth counter that is not at zero when no span is open stays
    off: every well-nested trace of its category then runs without
    capturing a start time and without crediting anything, and only moves the
    counter by the number of spans it leaves open.  This is the state after
    the agent was disabled during a span, whose end event it then missed:
    no later span of the category is accounted. *)
Theorem guarded_counter_stuck (depth_ty count_ty : int_type) (g : Guard)
    (evs : list HostEvent) (w : World) :
  instrumenting_agents_ (host w) = true ->
  1 <= depth_of g (agent w) <= int_max depth_ty ->
  well_nested (guards g) (int_max depth_ty - depth_of g (agent w)) [] evs
  = true ->
  exists w' : World,
    run depth_ty count_ty evs w = Some w'
    /\ agent w'
       = set_depth g
           (depth_of g (agent w) + Z.of_nat (length (open_after [] evs)))
           (agent w)
    /\ host w' = host w.
Proof.
  destruct w as [a h ps]; cbn [agent host]; intros Hreg [Hlo Hhi] Hwn.
  pose proof (run_guarded_offset depth_ty count_ty g (depth_of g a) evs
                [] ps a h Hreg Hlo) as Hrun.
  cbn [uncaptured_probes map app length] in Hrun.
  specialize (Hrun ltac:(lia) ltac:(lia) Hwn).
  eexists; split; [exact Hrun|]. split; reflexivity.
Qed.

Lemma guarded_counter_stuck_scenario :
  (instrumenting_agents_ (host disabled_during_layout_world) = true
   /\ 1 <= depth_of LayoutGuard (agent disabled_during_layout_world)
        <= int_max Int32
   /\ well_nested (guards LayoutGuard)
        (int_max Int32 - depth_of LayoutGuard (agent disabled_during_layout_world))
        [] nested_layout_trace = true)
  /\ exists w' : World,
       run Int32 UInt64 nested_layout_trace disabled_during_layout_world
       = Some w'
       /\ agent w' = agent disabled_during_layout_world
       /\ layout_depth_ (agent w') = 1
       /\ layout_duration_ (agent w') = 0%float
       /\ layout_count_ (agent w') = 0.
Proof.
  assert (H2 : 1 <= depth_of LayoutGuard (agent disabled_during_layout_world)
               <= int_max Int32) by (split; now vm_compute).
  split; [repeat split; try apply H2|].
  destruct (guarded_counter_stuck Int32 UInt64 LayoutGuard nested_layout_trace
              disabled_during_layout_world eq_refl H2 eq_refl)
    as (w' & Hrun & Hagent & _).
  exists w'. split; [exact Hrun|]. rewrite Hagent. repeat split.
Defined.

(** ** Traces that mix the probe classes *)

Lemma open_depth_le_length (g : Guard) (open : list (ProbeKind * float)) :
  (open_depth g open <= length open)%nat.
Proof.
  unfold open_depth. induction open as [|span open IH]; [reflexivity|].
  cbn [List.filter]. destruct (guards g (fst span)); cbn [length]; lia.
Qed.

Lemma set_depths_same (open : list (ProbeKind * float)) (a : Agent) :
  script_call_depth_ a = Z.of_nat (open_depth ScriptGuard open) ->
  layout_depth_ a = Z.of_nat (open_depth LayoutGuard open) ->
  set_depths open a = a.
Proof.
  intros Hs Hl. unfold set_depths. rewrite <- Hs, <- Hl.
  destruct a; reflexivity.
Qed.

Lemma set_depths_set_depth (open : list (ProbeKind * float)) (g : Guard)
    (v : Z) (a : Agent) :
  set_depths open (set_depth g v a) = set_depths open a.
Proof. destruct g; reflexivity. Qed.

Lemma credit_kind_set_depth (count_ty : int_type) (g : Guard) (v : Z)
    (a : Agent) (span : ProbeKind * float) :
  credit_kind count_ty (set_depth g v a) span
  = set_depth g v (credit_kind count_ty a span).
Proof. destruct span as [k t]; destruct g, k; reflexivity. Qed.

Lemma credit_kinds_set_depth (count_ty : int_type) (g : Guard) (v : Z)
    (spans : list (ProbeKind * float)) (a : Agent) :
  fold_left (credit_kind count_ty) spans (set_depth g v a)
  = set_depth g v (fold_left (credit_kind count_ty) spans a).
Proof.
  revert a; induction spans as [|s spans IH]; intros a; [reflexivity|].
  cbn [fold_left]. rewrite credit_kind_set_depth. apply IH.
Qed.

Lemma nat_eqb_of_nat (n : nat) : (Z.of_nat n =? 0) = (n =? 0)%nat.
Proof. destruct n; reflexivity. Qed.

Section MixedRun.

Variables depth_ty count_ty : int_type.

Lemma open_depth_cons (g : Guard) (k : ProbeKind) (t : float)
    (open : list (ProbeKind * float)) :
  open_depth g ((k, t) :: open)
  = if guards g k then S (open_depth g open) else open_depth g open.
Proof.
  unfold open_depth. cbn [List.filter fst].
  destruct (guards g k); reflexivity.
Qed.

Lemma depths_agree_begin (g : Guard) (k : ProbeKind) (now : float)
    (open : list (ProbeKind * float)) (a : Agent) :
  guard_of k = Some g ->
  depths_agree open a ->
  depths_agree ((k, now) :: open) (set_depth g (depth_of g a + 1) a).
Proof.
  intros Hg Hag g'. rewrite open_depth_cons, (Hag g).
  specialize (Hag g').
  destruct g, g', k; try discriminate Hg;
    cbn [guards depth_of set_depth set_script_call_depth set_layout_depth
         script_call_depth_ layout_depth_] in Hag |- *;
    rewrite ?Hag; lia.
Qed.

Lemma depths_agree_end (g : Guard) (k : ProbeKind) (start : float)
    (open : list (ProbeKind * float)) (a : Agent) :
  guard_of k = Some g ->
  depths_agree ((k, start) :: open) a ->
  depth_of g a = Z.of_nat (S (open_depth g open))
  /\ depths_agree open (set_depth g (Z.of_nat (open_depth g open)) a).
Proof.
  intros Hg Hag. split.
  - rewrite (Hag g), open_depth_cons.
    destruct g, k; try discriminate Hg; reflexivity.
  - intros g'. specialize (Hag g'). rewrite open_depth_cons in Hag.
    destruct g, g', k; try discriminate Hg;
      cbn [guards depth_of set_depth set_script_call_depth set_layout_depth
           script_call_depth_ layout_depth_] in Hag |- *;
      rewrite ?Hag; lia.
Qed.

Lemma depths_agree_style (start : float) (open : list (ProbeKind * float))
    (a : Agent) :
  depths_agree ((RecalculateStyle, start) :: open) a <-> depths_agree open a.
Proof.
  split; intros Hag g; specialize (Hag g); rewrite open_depth_cons in *;
    destruct g; exact Hag.
Qed.

Lemma depths_agree_credit (g : Guard) (open : list (ProbeKind * float))
    (a : Agent) (span : float) :
  depths_agree open a -> depths_agree open (credit count_ty g a span).
Proof. intros Hag g'. specialize (Hag g'). destruct g, g'; exact Hag. Qed.

Lemma depths_agree_credit_style (open : list (ProbeKind * float))
    (a : Agent) (span : float) :
  depths_agree open a -> depths_agree open (credit_style count_ty a span).
Proof. intros Hag g'. specialize (Hag g'). destruct g'; exact Hag. Qed.

Lemma guard_of_guards (k : ProbeKind) (g : Guard) :
  guard_of k = Some g -> guards g k = true.
Proof. destruct k, g; intros H; try discriminate H; reflexivity. Qed.

(** A well-nested trace of any probe classes, run from a state whose depth
    counters agree with the open spans: the run succeeds, the counters keep
    agreeing, and exactly the spans of [credited_spans] are credited. *)
Lemma run_mixed (evs : list HostEvent) :
  forall (open : list (ProbeKind * float)) (base : list (ProbeKind * Probe))
         (a : Agent) (h : Host),
  instrumenting_agents_ h = true ->
  depths_agree open a ->
  Z.of_nat (length open) <= int_max depth_ty ->
  well_nested any_kind (int_max depth_ty) open evs = true ->
  run depth_ty count_ty evs (mkWorld a h (mixed_probes open ++ base))
  = Some (mkWorld
            (set_depths (open_after open evs)
               (fold_left (credit_kind count_ty) (credited_spans open evs) a))
            h (mixed_probes (open_after open evs) ++ base)).
Proof.
  induction evs as [|ev evs IH]; intros open base a h Hreg Hag Hmax Hwn.
  - simpl. rewrite set_depths_same; [reflexivity | apply (Hag ScriptGuard)
                                                | apply (Hag LayoutGuard)].
  - destruct ev as [k now|k now|st|st en]; simpl in Hwn; try discriminate Hwn.
    + (* Begin *)
      apply andb_prop in Hwn as [Hlim Hrest]. apply Z.leb_le in Hlim.
      cbn [run step agent host probes]. rewrite Hreg.
      destruct (guard_of k) as [g|] eqn:Hg.
      * pose proof (open_depth_le_length g open) as Hle.
        rewrite (Will_guarded depth_ty g k a now (guard_of_guards k g Hg))
          by (rewrite (Hag g); lia).
        rewrite (Hag g) at 2. rewrite nat_eqb_of_nat.
        replace (if (open_depth g open =? 0)%nat
                 then mkProbe (Some now) else new_probe)
          with (if outermost k open then mkProbe (Some now) else new_probe)
          by (unfold outermost; rewrite Hg; reflexivity).
        change ((k, if outermost k open then mkProbe (Some now) else new_probe)
                :: mixed_probes open ++ base)
          with (mixed_probes ((k, now) :: open) ++ base).
        rewrite (IH ((k, now) :: open) base); try assumption.
        -- cbn [open_after credited_spans].
           rewrite credit_kinds_set_depth, set_depths_set_depth. reflexivity.
        -- apply depths_agree_begin; assumption.
        -- cbn [length]. lia.
      * destruct k; try discriminate Hg.
        cbn [Will Will_RecalculateStyle CaptureStartTime].
        change ((RecalculateStyle, mkProbe (Some now)) :: mixed_probes open ++ base)
          with (mixed_probes ((RecalculateStyle, now) :: open) ++ base).
        rewrite (IH ((RecalculateStyle, now) :: open) base); try assumption.
        -- reflexivity.
        -- apply depths_agree_style, Hag.
        -- cbn [length]. lia.
    + (* End *)
      destruct open as [|[k' start] open']; [discriminate Hwn|].
      apply andb_prop in Hwn as [Heq Hrest]. apply bool_decide_eq_true in Heq.
      subst k'. cbn [length] in Hmax.
      cbn [run step agent host probes mixed_probes app].
      rewrite decide_True by reflexivity. rewrite Hreg.
      cbn [open_after credited_spans tail].
      destruct (guard_of k) as [g|] eqn:Hg.
      * destruct (depths_agree_end g k start open' a Hg Hag) as [Hd Hag'].
        pose proof (open_depth_le_length g open') as Hle.
        unfold outermost. rewrite Hg.
        destruct (open_depth g open') as [|n] eqn:Hn; cbn [Nat.eqb].
        -- rewrite (Did_guarded_outer depth_ty count_ty g k a start now
                      (guard_of_guards k g Hg) Hd).
           rewrite (IH open' base); try assumption.
           ++ cbn [fold_left].
              replace (credit_kind count_ty a (k, (now - start)%float))
                with (credit count_ty g a (now - start)%float)
                by (unfold credit_kind; cbn [fst snd]; rewrite Hg; reflexivity).
              rewrite credit_set_depth, credit_kinds_set_depth,
                set_depths_set_depth. reflexivity.
           ++ apply depths_agree_credit. exact Hag'.
           ++ lia.
        -- rewrite (Did_guarded_inner depth_ty count_ty g k a _ now
                      (guard_of_guards k g Hg)) by lia.
           rewrite (IH open' base); try assumption.
           ++ rewrite credit_kinds_set_depth, set_depths_set_depth.
              reflexivity.
           ++ rewrite Hd.
              replace (Z.of_nat (S (S n)) - 1) with (Z.of_nat (S n)) by lia.
              exact Hag'.
           ++ lia.
      * destruct k; try discriminate Hg.
        change (outermost RecalculateStyle open') with true. cbn iota.
        cbn [Did Did_RecalculateStyle Duration start_time_].
        rewrite (IH open' base); try assumption.
        -- reflexivity.
        -- apply depths_agree_credit_style, depths_agree_style with start, Hag.
        -- lia.
Qed.

End MixedRun.

Lemma durations_of_credit_kinds (count_ty : int_type)
    (spans : list (ProbeKind * float)) :
  forall a : Agent,
  script_duration_ (fold_left (credit_kind count_ty) spans a)
  = fold_left PrimFloat.add (spans_of (guards ScriptGuard) spans)
      (script_duration_ a)
  /\ layout_duration_ (fold_left (credit_kind count_ty) spans a)
     = fold_left PrimFloat.add (spans_of (guards LayoutGuard) spans)
         (layout_duration_ a)
  /\ recalc_style_duration_ (fold_left (credit_kind count_ty) spans a)
     = fold_left PrimFloat.add (spans_of is_style spans)
         (recalc_style_duration_ a).
Proof.
  induction spans as [|[k t] spans IH]; intros a; [repeat split|].
  cbn [fold_left]. destruct (IH (credit_kind count_ty a (k, t))) as (Hs & Hl & Hr).
  rewrite Hs, Hl, Hr. destruct k; repeat split.
Qed.

(** X9.  For every well-nested trace that mixes the four probe classes in
    any way, run from a state with no script and no layout in progress, the
    run succeeds and the agent ends up with exactly the credits of
    [credited_spans]: a style recalculation is credited at each of its end
    events with its own elapsed time, a script or layout span only when no
    span of the same guard is open around it, with the wall time of that
    outermost span; spans of one category nested in spans of another do not
    disturb either.  Both depth counters equal the numbers of open spans of
    their guards, and the collaborators are not touched. *)
Theorem mixed_trace_accounting (depth_ty count_ty : int_type)
    (evs : list HostEvent) (w : World) :
  instrumenting_agents_ (host w) = true ->
  script_call_depth_ (agent w) = 0 ->
  layout_depth_ (agent w) = 0 ->
  well_nested any_kind (int_max depth_ty) [] evs = true ->
  exists w' : World,
    run depth_ty count_ty evs w = Some w'
    /\ agent w'
       = set_depths (open_after [] evs)
           (fold_left (credit_kind count_ty) (credited_spans [] evs) (agent w))
    /\ script_duration_ (agent w')
       = fold_left PrimFloat.add
           (spans_of (guards ScriptGuard) (credited_spans [] evs))
           (script_duration_ (agent w))
    /\ layout_duration_ (agent w')
       = fold_left PrimFloat.add
           (spans_of (guards LayoutGuard) (credited_spans [] evs))
           (layout_duration_ (agent w))
    /\ recalc_style_duration_ (agent w')
       = fold_left PrimFloat.add
           (spans_of is_style (credited_spans [] evs))
           (recalc_style_duration_ (agent w))
    /\ host w' = host w.
Proof.
  destruct w as [a h ps]; cbn [agent host]; intros Hreg Hs Hl Hwn.
  assert (Hag : depths_agree [] a) by (intros g; destruct g; assumption).
  pose proof (run_mixed depth_ty count_ty evs [] ps a h Hreg Hag) as Hrun.
  cbn [mixed_probes app length] in Hrun.
  specialize (Hrun ltac:(pose proof (int_max_large depth_ty); lia) Hwn).
  eexists; split; [exact Hrun|]. cbn [agent host].
  destruct (durations_of_credit_kinds count_ty (credited_spans [] evs) a)
    as (Hsd & Hld & Hrd).
  repeat split; unfold set_depths; cbn; assumption.
Qed.

Lemma page_load_scenario :
  (instrumenting_agents_ (host enabled_world) = true
   /\ script_call_depth_ (agent enabled_world) = 0
   /\ layout_depth_ (agent enabled_world) = 0
   /\ well_nested any_kind (int_max Int32) [] page_load_trace = true)
  /\ exists w' : World,
       run Int32 UInt64 page_load_trace enabled_world = Some w'
       /\ counters (agent w')
          = (1, 2, 7%float, 3%float, 9%float, 0%float, 0, 0).
Proof.
  split; [repeat split|].
  destruct (mixed_trace_accounting Int32 UInt64 page_load_trace enabled_world
              eq_refl eq_refl eq_refl eq_refl) as (w' & Hrun & Hagent & _).
  exists w'. split; [exact Hrun|]. rewrite Hagent. reflexivity.
Defined.

(** ** Handlers and the enabled flag *)

(** X10.  No probe or task handler looks at [enabled_]: an event that
    reaches a disabled agent is accounted exactly as it is for an enabled
    one, and no handler changes the flag.  Only the registrations decide
    whether an event counts. *)
Theorem handlers_ignore_enabled (depth_ty count_ty : int_type) (k : ProbeKind)
    (flag : bool) (a : Agent) (probe : Probe) (now start_time end_time : float) :
  Will depth_ty k (set_enabled flag a) probe now
  = (set_enabled flag (fst (Will depth_ty k a probe now)),
     snd (Will depth_ty k a probe now))
  /\ Did depth_ty count_ty k (set_enabled flag a) probe now
     = option_map (set_enabled flag) (Did depth_ty count_ty k a probe now)
  /\ WillProcessTask (set_enabled flag a) start_time
     = set_enabled flag (WillProcessTask a start_time)
  /\ DidProcessTask (set_enabled flag a) start_time end_time
     = set_enabled flag (DidProcessTask a start_time end_time).
Proof.
  split; [|split; [|split]].
  - destruct k; cbn [Will];
      unfold Will_CallFunction, Will_ExecuteScript, Will_RecalculateStyle,
        Will_UpdateLayout; cbn;
      try destruct (_ =? 0); reflexivity.
  - destruct k; cbn [Did];
      unfold Did_CallFunction, Did_ExecuteScript, Did_RecalculateStyle,
        Did_UpdateLayout, Duration; cbn;
      try destruct (_ =? 0); cbn; destruct (start_time_ probe); reflexivity.
  - reflexivity.
  - unfold DidProcessTask. cbn.
    destruct (task_start_time_ a =? start_time)%float; reflexivity.
Qed.

(** ** The task window *)

(** X11.  A matching task end event does not close the window: the stored
    start time stays, so a second end event with the same start time is
    credited again. *)
Theorem task_end_keeps_window (depth_ty count_ty : int_type) (w : World)
    (start_time end1 end2 : float) :
  task_time_observers_ (host w) = true ->
  (start_time =? start_time)%float = true ->
  exists w' : World,
    run depth_ty count_ty
      [TaskBegin start_time; TaskEnd start_time end1; TaskEnd start_time end2] w
    = Some w'
    /\ task_start_time_ (agent w') = start_time
    /\ task_duration_ (agent w')
       = (task_duration_ (agent w) + (end1 - start_time)
          + (end2 - start_time))%float.
Proof.
  destruct w as [a h ps]; cbn [host agent]; intros Hobs Hself.
  eexists. cbn [run step host agent probes].
  repeat (rewrite Hobs; cbn [run step host agent probes]).
  split; [reflexivity|].
  unfold DidProcessTask, WillProcessTask. cbn. rewrite Hself. cbn.
  rewrite Hself. split; reflexivity.
Qed.

Lemma task_end_keeps_window_scenario :
  (task_time_observers_ (host enabled_world) = true
   /\ (10 =? 10)%float = true)
  /\ exists w' : World,
       run Int32 UInt64 [TaskBegin 10; TaskEnd 10 15; TaskEnd 10 12] enabled_world
       = Some w'
       /\ task_start_time_ (agent w') = 10%float
       /\ task_duration_ (agent w') = 7%float.
Proof.
  split; [repeat split|].
  exact (task_end_keeps_window Int32 UInt64 enabled_world 10 15 12
           eq_refl eq_refl).
Defined.

(** X12.  Tasks do not nest: when a second task begins before the first
    has ended, its start time replaces the stored one; the end of the inner
    task is credited, and the end of the outer task, whose start time no
    longer compares equal to the stored one, adds nothing. *)
Theorem nested_task_drops_outer (depth_ty count_ty : int_type) (w : World)
    (outer_start outer_end inner_start inner_end : float) :
  task_time_observers_ (host w) = true ->
  (inner_start =? inner_start)%float = true ->
  (inner_start =? outer_start)%float = false ->
  exists w' : World,
    run depth_ty count_ty
      [TaskBegin outer_start; TaskBegin inner_start;
       TaskEnd inner_start inner_end; TaskEnd outer_start outer_end] w
    = Some w'
    /\ task_duration_ (agent w')
       = (task_duration_ (agent w) + (inner_end - inner_start))%float
    /\ task_start_time_ (agent w') = inner_start.
Proof.
  destruct w as [a h ps]; cbn [host agent]; intros Hobs Hself Hdiff.
  eexists. cbn [run step host agent probes].
  repeat (rewrite Hobs; cbn [run step host agent probes]).
  split; [reflexivity|].
  unfold DidProcessTask, WillProcessTask. cbn. rewrite Hself. cbn.
  rewrite Hdiff. split; reflexivity.
Qed.

Lemma nested_task_scenario :
  (task_time_observers_ (host enabled_world) = true
   /\ (20 =? 20)%float = true
   /\ (20 =? 10)%float = false)
  /\ exists w' : World,
       run Int32 UInt64
         [TaskBegin 10; TaskBegin 20; TaskEnd 20 25; TaskEnd 10 30] enabled_world
       = Some w'
       /\ task_duration_ (agent w') = 5%float
       /\ task_start_time_ (agent w') = 20%float.
Proof.
  split; [repeat split|].
  exact (nested_task_drops_outer Int32 UInt64 enabled_world 10 30 20 25
           eq_refl eq_refl eq_refl).
Defined.

(** ** Names in the snapshot *)

Lemma list_ascii_of_string_append (s1 s2 : string) :
  list_ascii_of_string (String.append s1 s2)
  = list_ascii_of_string s1 ++ list_ascii_of_string s2.
Proof.
  induction s1 as [|c s1 IH]; [reflexivity|].
  change (String.append (String c s1) s2) with (String c (String.append s1 s2)).
  cbn [list_ascii_of_string app]. rewrite IH. reflexivity.
Qed.

Lemma append_suffix_inj (s1 s2 suffix : string) :
  String.append s1 suffix = String.append s2 suffix -> s1 = s2.
Proof.
  intros H. apply (f_equal list_ascii_of_string) in H.
  rewrite !list_ascii_of_string_append in H.
  apply app_inv_tail in H.
  rewrite <- (string_of_list_ascii_of_string s1),
          <- (string_of_list_ascii_of_string s2), H.
  reflexivity.
Qed.

Lemma counter_metric_name_list (counter_value : nat -> float)
    (names : list string) :
  forall i : nat,
  map metric_name (spec_counter_metrics counter_value i names)
  = map (fun name => String.append name "Count") names.
Proof.
  induction names as [|name names IH]; intros i; [reflexivity|].
  cbn [spec_counter_metrics map metric_name]. rewrite IH. reflexivity.
Qed.

Lemma NoDup_counter_names (names : list string) :
  NoDup names -> NoDup (map (fun name => String.append name "Count") names).
Proof.
  induction 1 as [|name names Hnotin Hnodup IH]; cbn [map]; constructor.
  - rewrite list_elem_of_In, in_map_iff. intros (name' & Heq & Hin).
    apply append_suffix_inj in Heq. subst name'.
    apply Hnotin, list_elem_of_In, Hin.
  - exact IH.
Qed.

(** X13.  The names in a snapshot are pairwise distinct, so that a consumer
    may key the metrics by name, provided that the instance counters have
    distinct names and none of them is called "Layout" or "RecalcStyle"; a
    counter called "Layout" would be listed as "LayoutCount", the name of the
    agent's own layout count. *)
Theorem snapshot_names_distinct (INSTANCE_COUNTERS_LIST : list string)
    (w : World) :
  enabled_ (agent w) = true ->
  NoDup INSTANCE_COUNTERS_LIST ->
  ~ In "Layout"%string INSTANCE_COUNTERS_LIST ->
  ~ In "RecalcStyle"%string INSTANCE_COUNTERS_LIST ->
  NoDup (map metric_name (snd (fst (getMetrics INSTANCE_COUNTERS_LIST w)))).
Proof.
  intros Hon Hnodup Hlayout Hstyle.
  rewrite (getMetrics_when_enabled _ w Hon). cbn [fst snd].
  rewrite map_app, counter_metric_name_list.
  apply NoDup_app. split; [apply NoDup_counter_names, Hnodup|]. split.
  - intros name Hin Hin'.
    apply list_elem_of_In, in_map_iff in Hin as (name' & <- & Hin).
    apply list_elem_of_In in Hin'.
    rewrite map_app in Hin'. apply in_app_or in Hin' as [Hfix|Htim].
    + cbn in Hfix.
      destruct Hfix as [H|[H|[H|[H|[H|[H|[]]]]]]].
      * apply (append_suffix_inj "Layout" name' "Count") in H.
        subst. exact (Hlayout Hin).
      * apply (append_suffix_inj "RecalcStyle" name' "Count") in H.
        subst. exact (Hstyle Hin).
      * pose proof (ends_with_Count_append name') as He.
        rewrite <- H in He. discriminate He.
      * pose proof (ends_with_Count_append name') as He.
        rewrite <- H in He. discriminate He.
      * pose proof (ends_with_Count_append name') as He.
        rewrite <- H in He. discriminate He.
      * pose proof (ends_with_Count_append name') as He.
        rewrite <- H in He. discriminate He.
    + destruct (GetDocument (host w)) as [d|]; cbn in Htim; [|destruct Htim].
      destruct Htim as [H|[H|[]]];
        pose proof (ends_with_Count_append name') as He;
        rewrite <- H in He; discriminate He.
  - destruct (GetDocument (host w)) as [d|]; cbn;
      apply (bool_decide_unpack _); vm_compute; exact I.
Qed.

Lemma snapshot_names_distinct_scenario :
  (enabled_ (agent snapshot_world) = true
   /\ NoDup ["Document"; "Node"]%string
   /\ ~ In "Layout"%string ["Document"; "Node"]%string
   /\ ~ In "RecalcStyle"%string ["Document"; "Node"]%string)
  /\ NoDup (map metric_name
              (snd (fst (getMetrics ["Document"; "Node"] snapshot_world)))).
Proof.
  assert (H2 : NoDup ["Document"; "Node"]%string)
    by (apply (bool_decide_unpack _); vm_compute; exact I).
  assert (H3 : ~ In "Layout"%string ["Document"; "Node"]%string)
    by (cbn; intros [H|[H|[]]]; discriminate H).
  assert (H4 : ~ In "RecalcStyle"%string ["Document"; "Node"]%string)
    by (cbn; intros [H|[H|[]]]; discriminate H).
  split; [repeat split; assumption|].
  exact (snapshot_names_distinct ["Document"; "Node"] snapshot_world
           eq_refl H2 H3 H4).
Defined.

(** An instance counter called "Layout" makes the name "LayoutCount" occur
    twice in the snapshot. *)
Example snapshot_name_clash :
  map metric_name (snd (fst (getMetrics ["Layout"] enabled_world)))
  = ["LayoutCount"; "LayoutCount"; "RecalcStyleCount"; "LayoutDuration";
     "RecalcStyleDuration"; "ScriptDuration"; "TaskDuration"]%string.
Proof. reflexivity. Qed.

(** ** Registrations are never doubled *)

Lemma count_calls_app (p : HostCall -> bool) (cs1 cs2 : list HostCall) :
  count_calls p (cs1 ++ cs2) = (count_calls p cs1 + count_calls p cs2)%nat.
Proof. unfold count_calls. rewrite List.filter_app, length_app. reflexivity. Qed.

Lemma count_calls_plain (p : HostCall -> bool) (cs : list HostCall) :
  (forall c, p c = true -> is_plain_call c = false) ->
  forallb is_plain_call cs = true ->
  count_calls p cs = 0%nat.
Proof.
  intros Hp. unfold count_calls.
  induction cs as [|c cs IH]; cbn [forallb List.filter]; [reflexivity|].
  intros Hall. apply andb_prop in Hall as [Hc Hall].
  destruct (p c) eqn:Hpc; [|apply IH, Hall].
  rewrite (Hp c Hpc) in Hc. discriminate Hc.
Qed.

Lemma getMetrics_calls_plain (names : list string) (document : option Document) :
  forallb is_plain_call (getMetrics_calls names document) = true.
Proof.
  unfold getMetrics_calls. rewrite forallb_app. apply andb_true_intro. split.
  - generalize 0%nat. induction names as [|name names IH]; intros i;
      [reflexivity|]. cbn [length seq map forallb]. apply IH.
  - destruct document; reflexivity.
Qed.

Lemma registered_once_plain (cs : list HostCall) (w : World) :
  forallb is_plain_call cs = true ->
  registered_once w ->
  registered_once (mkWorld (agent w) (log_calls cs (host w)) (probes w)).
Proof.
  intros Hplain [Hh Ho]. unfold registered_once. cbn [agent host log_calls calls].
  rewrite !count_calls_app.
  rewrite !(count_calls_plain _ cs) by
    (try exact Hplain; intros c Hc; destruct c; try discriminate Hc; reflexivity).
  rewrite !Nat.add_0_r. split; assumption.
Qed.

Lemma registered_once_enable (w : World) :
  registered_once w -> registered_once (snd (enable w)).
Proof.
  intros [Hh Ho]. destruct (enabled_ (agent w)) eqn:Hen.
  - unfold enable. rewrite Hen. unfold registered_once. cbn [snd].
    rewrite Hen. split; assumption.
  - rewrite (enable_when_disabled w Hen).
    unfold registered_once, AddTaskTimeObserver, addInspectorPerformanceAgent,
      setBoolean, log.
    cbn [snd agent host calls enabled_ set_task_start_time set_enabled].
    rewrite !count_calls_app. unfold count_calls in *.
    cbn [List.filter length is_hook_registration is_hook_unregistration
         is_observer_registration is_observer_unregistration].
    lia.
Qed.

Lemma registered_once_disable (w : World) :
  registered_once w -> registered_once (snd (disable w)).
Proof.
  intros [Hh Ho]. destruct (enabled_ (agent w)) eqn:Hen.
  - rewrite (disable_when_enabled w Hen).
    unfold registered_once, RemoveTaskTimeObserver,
      removeInspectorPerformanceAgent, setBoolean, log.
    cbn [snd agent host calls enabled_ set_enabled].
    rewrite !count_calls_app. unfold count_calls in *.
    cbn [List.filter length is_hook_registration is_hook_unregistration
         is_observer_registration is_observer_unregistration].
    lia.
  - unfold disable. rewrite Hen. unfold registered_once. cbn [negb snd].
    rewrite Hen. split; assumption.
Qed.

Lemma registered_once_Restore (w : World) :
  registered_once w -> registered_once (Restore w).
Proof.
  intros Hr. unfold Restore, booleanProperty. rewrite log_calls_one.
  pose proof (registered_once_plain
                [call_booleanProperty kPerformanceAgentEnabled false] w
                eq_refl Hr) as Hr'.
  destruct (default false (state_ (host w) !! kPerformanceAgentEnabled));
    [apply registered_once_enable|]; exact Hr'.
Qed.

Lemma registered_once_exec (INSTANCE_COUNTERS_LIST : list string) (c : Command)
    (w : World) :
  registered_once w -> registered_once (exec INSTANCE_COUNTERS_LIST c w).
Proof.
  intros Hr. destruct c as [| | | |title]; cbn [exec].
  - apply registered_once_enable, Hr.
  - apply registered_once_disable, Hr.
  - apply registered_once_Restore, Hr.
  - destruct (enabled_ (agent w)) eqn:Hen.
    + rewrite (getMetrics_when_enabled _ w Hen). cbn [snd].
      apply registered_once_plain; [apply getMetrics_calls_plain | exact Hr].
    + unfold getMetrics. rewrite Hen. exact Hr.
  - unfold ConsoleTimeStamp. destruct (enabled_ (agent w)) eqn:Hen; cbn [negb];
      [|exact Hr].
    rewrite (getMetrics_when_enabled _ w Hen). cbn [agent host probes].
    rewrite log_calls_one, log_calls_twice.
    apply registered_once_plain; [|exact Hr].
    rewrite forallb_app, getMetrics_calls_plain. reflexivity.
Qed.

(** X14.  Whatever commands reach the agent, in whatever order and also
    when the persisted flag disagrees with the agent, it is never registered
    twice: with the instrumenting agents and with the thread's task time
    observers alike, the registration calls outnumber the unregistration
    calls by one while the agent is enabled and equal them while it is
    disabled. *)
Theorem commands_register_once (INSTANCE_COUNTERS_LIST : list string)
    (cs : list Command) (w : World) :
  registered_once w ->
  registered_once (exec_all INSTANCE_COUNTERS_LIST cs w).
Proof.
  unfold exec_all. revert w.
  induction cs as [|c cs IH]; intros w Hr; [exact Hr|].
  cbn [fold_left]. apply IH, registered_once_exec, Hr.
Qed.

Lemma commands_register_once_new_agent :
  registered_once (new_world (fun _ => 0%float) None)
  /\ registered_once
       (exec_all ["Document"]
          [CmdEnable; CmdEnable; CmdRestore; CmdDisable; CmdDisable;
           CmdRestore; CmdGetMetrics; CmdEnable; CmdConsoleTimeStamp "mark"]
          (new_world (fun _ => 0%float) None)).
Proof.
  assert (H0 : registered_once (new_world (fun _ => 0%float) None))
    by (split; reflexivity).
  split; [exact H0|].
  exact (commands_register_once ["Document"]
           [CmdEnable; CmdEnable; CmdRestore; CmdDisable; CmdDisable;
            CmdRestore; CmdGetMetrics; CmdEnable; CmdConsoleTimeStamp "mark"]
           (new_world (fun _ => 0%float) None) H0).
Defined.

(** ** Events while the agent is not registered *)



